(** * AgentNet annotator, core_v2: event bus, action model, recording session

    A shallow embedding of three modules of [api/core_v2]:
    - [events.py]            : [EventType], [Event], [EventHandler], [EventBus];
    - [actions/action.py]    : [ActionType], [ActionData], the [Action]
                               classes and [ActionFactory];
    - [recording/session.py] : [SessionState], [SessionMetadata],
                               [RecordingSession].

    Conventions of the embedding.
    - Python [float] timestamps are rationals ([Q]) with exact arithmetic;
      rounding is not modelled.  [==] on floats is [Qeq].
    - Every call of [time.time()] is an explicit argument (a clock reading).
    - A [Dict[str, Any]] used as a map is a [gmap string pyval].
    - Objects compared by identity (handlers, observers) carry an identity
      number.
    - A mutable list stored in a dict and handed out by [dict.get] is the
      same object: the embedding writes the mutation back into the map. *)

From Stdlib Require Import ZArith QArith Qabs String List Lia Lqa.
From stdpp Require Import base decidable countable gmap strings list pretty.

Local Open Scope list_scope.

(** ** Python values and helpers shared by the three modules *)

#[global] Instance Q_eq_dec : EqDecision Q.
Proof. solve_decision. Defined.

#[global] Instance Q_lt_dec (x y : Q) : Decision (x < y)%Q.
Proof.
  destruct (Qlt_le_dec x y) as [H | H];
    [left; exact H | right; apply Qle_not_lt; exact H].
Defined.

(** Leaf values of a [Dict[str, Any]]. *)
Inductive pyval : Type :=
  | PyNone
  | PyBool (b : bool)
  | PyInt (z : Z)
  | PyFloat (q : Q)
  | PyStr (s : string).

#[global] Instance pyval_eq_dec : EqDecision pyval.
Proof. solve_decision. Defined.

Abbreviation pydict := (gmap string pyval).

(** [int(x)] on a float: truncation towards zero. *)
Definition py_int (x : Q) : Z := Z.quot (Qnum x) (Zpos (Qden x)).

(** [int(time.time() * 1000000)] for a clock reading [now]. *)
Definition microseconds (now : Q) : Z := py_int (now * 1000000)%Q.

(** [f"{name}_{n}"]. *)
Definition fmt_id (name : string) (n : Z) : string :=
  name +:+ "_" +:+ pretty n.

(** [{**a, **b}]: the entries of [a] overridden by those of [b]. *)
Definition dict_merge {V} (a b : gmap string V) : gmap string V := b ∪ a.

(** Truthiness of an [Optional[Dict]]: [None] and [{}] are falsy. *)
Definition dict_truthy {V} (d : option (gmap string V)) : bool :=
  match d with
  | None => false
  | Some m => negb (bool_decide (dom m = ∅))
  end.

(** [x or y] on [Optional[Dict]]. *)
Definition dict_or {V} (x y : option (gmap string V)) : option (gmap string V) :=
  if dict_truthy x then x else y.

(** [l[-limit:]]: a negative start counts from the end and is clipped at 0;
    [-0] is [0], and a negative [limit] gives a positive start. *)
Definition slice_from_neg {A} (l : list A) (limit : Z) : list A :=
  if (0 <? limit)%Z then drop (length l - Z.to_nat limit) l
  else drop (Z.to_nat (- limit)) l.

(** * events.py *)
Module Events.

Inductive EventType : Type :=
  | RECORDING_STARTED | RECORDING_STOPPED | RECORDING_PAUSED | RECORDING_RESUMED
  | MOUSE_MOVED | MOUSE_CLICKED | KEY_PRESSED | SCROLL_EVENT
  | WINDOW_CHANGED | APP_SWITCHED | SCREEN_CHANGED
  | EVENT_PROCESSED | BATCH_COMPLETED | ERROR_OCCURRED
  | FILE_CREATED | FILE_SAVED | FILE_DELETED
  | A11Y_TREE_UPDATED | ELEMENT_FOCUSED.

#[global] Instance EventType_eq_dec : EqDecision EventType.
Proof. solve_decision. Defined.

(** The value [auto()] gives each member, counted from 1. *)
Definition EventType_value (t : EventType) : positive :=
  match t with
  | RECORDING_STARTED => 1 | RECORDING_STOPPED => 2 | RECORDING_PAUSED => 3
  | RECORDING_RESUMED => 4 | MOUSE_MOVED => 5 | MOUSE_CLICKED => 6
  | KEY_PRESSED => 7 | SCROLL_EVENT => 8 | WINDOW_CHANGED => 9
  | APP_SWITCHED => 10 | SCREEN_CHANGED => 11 | EVENT_PROCESSED => 12
  | BATCH_COMPLETED => 13 | ERROR_OCCURRED => 14 | FILE_CREATED => 15
  | FILE_SAVED => 16 | FILE_DELETED => 17 | A11Y_TREE_UPDATED => 18
  | ELEMENT_FOCUSED => 19
  end%positive.

Definition EventType_of_value (p : positive) : option EventType :=
  match p with
  | 1 => Some RECORDING_STARTED | 2 => Some RECORDING_STOPPED
  | 3 => Some RECORDING_PAUSED | 4 => Some RECORDING_RESUMED
  | 5 => Some MOUSE_MOVED | 6 => Some MOUSE_CLICKED | 7 => Some KEY_PRESSED
  | 8 => Some SCROLL_EVENT | 9 => Some WINDOW_CHANGED | 10 => Some APP_SWITCHED
  | 11 => Some SCREEN_CHANGED | 12 => Some EVENT_PROCESSED
  | 13 => Some BATCH_COMPLETED | 14 => Some ERROR_OCCURRED
  | 15 => Some FILE_CREATED | 16 => Some FILE_SAVED | 17 => Some FILE_DELETED
  | 18 => Some A11Y_TREE_UPDATED | 19 => Some ELEMENT_FOCUSED
  | _ => None
  end%positive.

#[global] Instance EventType_countable : Countable EventType.
Proof.
  refine {| encode := EventType_value; decode := EventType_of_value |}.
  by intros [].
Defined.

Definition EventType_name (t : EventType) : string :=
  match t with
  | RECORDING_STARTED => "RECORDING_STARTED"
  | RECORDING_STOPPED => "RECORDING_STOPPED"
  | RECORDING_PAUSED => "RECORDING_PAUSED"
  | RECORDING_RESUMED => "RECORDING_RESUMED"
  | MOUSE_MOVED => "MOUSE_MOVED"
  | MOUSE_CLICKED => "MOUSE_CLICKED"
  | KEY_PRESSED => "KEY_PRESSED"
  | SCROLL_EVENT => "SCROLL_EVENT"
  | WINDOW_CHANGED => "WINDOW_CHANGED"
  | APP_SWITCHED => "APP_SWITCHED"
  | SCREEN_CHANGED => "SCREEN_CHANGED"
  | EVENT_PROCESSED => "EVENT_PROCESSED"
  | BATCH_COMPLETED => "BATCH_COMPLETED"
  | ERROR_OCCURRED => "ERROR_OCCURRED"
  | FILE_CREATED => "FILE_CREATED"
  | FILE_SAVED => "FILE_SAVED"
  | FILE_DELETED => "FILE_DELETED"
  | A11Y_TREE_UPDATED => "A11Y_TREE_UPDATED"
  | ELEMENT_FOCUSED => "ELEMENT_FOCUSED"
  end.

(** [Event.data]: a plain payload, or the payload [publish] builds for an
    [ERROR_OCCURRED] event, which holds the offending event itself. *)
Inductive Event : Type :=
  | Build_Event (event_type : EventType) (timestamp : Q) (source : string)
                (data : EventData) (event_id : string)
with EventData : Type :=
  | Payload (d : pydict)
  | ErrorPayload (original_event : Event) (handler : string) (error : string).

Definition event_type (e : Event) : EventType :=
  let 'Build_Event t _ _ _ _ := e in t.
Definition timestamp (e : Event) : Q :=
  let 'Build_Event _ ts _ _ _ := e in ts.
Definition source (e : Event) : string :=
  let 'Build_Event _ _ s _ _ := e in s.
Definition data (e : Event) : EventData :=
  let 'Build_Event _ _ _ d _ := e in d.
Definition event_id (e : Event) : string :=
  let 'Build_Event _ _ _ _ i := e in i.

(** The dataclass constructor followed by [__post_init__]; [now] is the
    reading of [time.time()] taken there when no id is supplied. *)
Definition Event_init (now : Q) (ty : EventType) (ts : Q) (src : string)
    (d : EventData) (eid : option string) : Event :=
  Build_Event ty ts src d
    (match eid with
     | Some i => i
     | None => fmt_id (EventType_name ty) (microseconds now)
     end).

(** An [EventHandler] object.  [can_handle] returns; [handle_event e] is
    [None] when the call returns and [Some msg] when it raises
    [Exception(msg)]; handlers do not call back into the bus. *)
Record EventHandler : Type := {
  handler_id : nat;
  class_name : string;
  can_handle : EventType → bool;
  handle_event : Event → option string;
}.

(** [FunctionEventHandler(handler_func, event_types)]. *)
Definition FunctionEventHandler (ident : nat)
    (handler_func : Event → option string) (event_types : list EventType)
    : EventHandler :=
  {| handler_id := ident;
     class_name := "FunctionEventHandler";
     can_handle := λ t, bool_decide (t ∈ event_types);
     handle_event := handler_func |}.

Record EventBus : Type := {
  _handlers : gmap EventType (list EventHandler);
  _global_handlers : list EventHandler;
  _event_history : list Event;
  _max_history : nat;
}.

(** [EventBus()] *)
Definition EventBus_init : EventBus :=
  {| _handlers := ∅; _global_handlers := []; _event_history := [];
     _max_history := 1000 |}.

(** [subscribe]: [self._handlers[event_type].append(handler)] on a
    [defaultdict(list)], which creates the key when it is missing. *)
Definition subscribe (b : EventBus) (et : EventType) (h : EventHandler)
    : EventBus :=
  {| _handlers := <[et := default [] (_handlers b !! et) ++ [h]]> (_handlers b);
     _global_handlers := _global_handlers b;
     _event_history := _event_history b;
     _max_history := _max_history b |}.

(** [subscribe_function]: one wrapper object, subscribed to each type. *)
Definition subscribe_function (b : EventBus) (ident : nat)
    (event_types : list EventType) (handler_func : Event → option string)
    : EventBus :=
  foldl (λ b' et, subscribe b' et
                    (FunctionEventHandler ident handler_func event_types))
        b event_types.

Definition subscribe_global (b : EventBus) (h : EventHandler) : EventBus :=
  {| _handlers := _handlers b;
     _global_handlers := _global_handlers b ++ [h];
     _event_history := _event_history b;
     _max_history := _max_history b |}.

(** [list.remove(handler)] with the [ValueError] swallowed: the first
    entry that is the same object goes, a list without it is unchanged. *)
Fixpoint list_remove (h : EventHandler) (l : list EventHandler)
    : list EventHandler :=
  match l with
  | [] => []
  | x :: rest =>
      if decide (handler_id x = handler_id h) then rest
      else x :: list_remove h rest
  end.

Definition unsubscribe (b : EventBus) (et : EventType) (h : EventHandler)
    : EventBus :=
  match _handlers b !! et with
  | Some l =>
      {| _handlers := <[et := list_remove h l]> (_handlers b);
         _global_handlers := _global_handlers b;
         _event_history := _event_history b;
         _max_history := _max_history b |}
  | None => b
  end.

Definition unsubscribe_global (b : EventBus) (h : EventHandler) : EventBus :=
  {| _handlers := _handlers b;
     _global_handlers := list_remove h (_global_handlers b);
     _event_history := _event_history b;
     _max_history := _max_history b |}.

(** One entry per call of [handler.handle_event(event)]. *)
Definition call : Type := nat * Event.

(** [_publish_error_event]: a single [try] around the whole loop, so the
    first handler that raises ends it. *)
Fixpoint error_loop (error_event : Event) (hs : list EventHandler)
    : list call :=
  match hs with
  | [] => []
  | h :: rest =>
      if can_handle h ERROR_OCCURRED then
        (handler_id h, error_event) ::
        match handle_event h error_event with
        | None => error_loop error_event rest
        | Some _ => []
        end
      else error_loop error_event rest
  end.

Definition _publish_error_event (reg : gmap EventType (list EventHandler))
    (error_event : Event) : list call :=
  error_loop error_event (default [] (reg !! ERROR_OCCURRED)).

(** The [for handler in handlers] loop of [publish], one [try] per
    handler.  [clock] gives the readings of [time.time()] of this call and
    [n] counts those already taken: an error event takes two, its
    [timestamp] and then its id. *)
Fixpoint handler_loop (reg : gmap EventType (list EventHandler))
    (clock : nat → Q) (e : Event) (hs : list EventHandler) (n : nat)
    : list call :=
  match hs with
  | [] => []
  | h :: rest =>
      if can_handle h (event_type e) then
        (handler_id h, e) ::
        match handle_event h e with
        | None => handler_loop reg clock e rest n
        | Some msg =>
            let error_event :=
              Event_init (clock (S n)) ERROR_OCCURRED (clock n) "EventBus"
                         (ErrorPayload e (class_name h) msg) None in
            (if decide (event_type e ≠ ERROR_OCCURRED)
             then _publish_error_event reg error_event else [])
            ++ handler_loop reg clock e rest (S (S n))
        end
      else handler_loop reg clock e rest n
  end.

(** [publish].  [self._handlers.get(event.event_type, [])] hands out the
    list stored in the registry when the key is there, and a new list
    otherwise; [handlers.extend] then mutates whichever it got. *)
Definition publish (clock : nat → Q) (b : EventBus) (e : Event)
    : EventBus * list call :=
  let appended := _event_history b ++ [e] in
  let history :=
    if decide (_max_history b < length appended) then tail appended
    else appended in
  let handlers :=
    default [] (_handlers b !! event_type e) ++ _global_handlers b in
  let reg :=
    match _handlers b !! event_type e with
    | Some _ => <[event_type e := handlers]> (_handlers b)
    | None => _handlers b
    end in
  ({| _handlers := reg;
      _global_handlers := _global_handlers b;
      _event_history := history;
      _max_history := _max_history b |},
   handler_loop reg clock e handlers 0).

(** [create_event]: [data or {}], two clock readings for the event, then
    [publish]. *)
Definition create_event (clock : nat → Q) (b : EventBus) (ty : EventType)
    (src : string) (d : option pydict) : EventBus * list call * Event :=
  let event :=
    Event_init (clock 1) ty (clock 0) src
               (Payload (default ∅ (dict_or d (Some ∅)))) None in
  (publish (λ n, clock (S (S n))) b event, event).

Definition get_event_history (b : EventBus) (et : option EventType)
    (limit : Z) : list Event :=
  let events := slice_from_neg (_event_history b) limit in
  match et with
  | Some t => filter (λ e, event_type e = t) events
  | None => events
  end.

Definition clear_history (b : EventBus) : EventBus :=
  {| _handlers := _handlers b;
     _global_handlers := _global_handlers b;
     _event_history := [];
     _max_history := _max_history b |}.

Definition get_handler_count (b : EventBus) (et : option EventType) : nat :=
  match et with
  | Some t => length (default [] (_handlers b !! t))
  | None =>
      map_fold (λ _ hs total, length hs + total) 0 (_handlers b)
      + length (_global_handlers b)
  end.

End Events.

(** * actions/action.py *)
Module Actions.

Inductive ActionType : Type :=
  | MOVE | CLICK | TYPE | PRESS | SCROLL | DRAG | WAIT | SCREENSHOT.

#[global] Instance ActionType_eq_dec : EqDecision ActionType.
Proof. solve_decision. Defined.

Definition ActionType_value (t : ActionType) : positive :=
  match t with
  | MOVE => 1 | CLICK => 2 | TYPE => 3 | PRESS => 4
  | SCROLL => 5 | DRAG => 6 | WAIT => 7 | SCREENSHOT => 8
  end%positive.

Definition ActionType_of_value (p : positive) : option ActionType :=
  match p with
  | 1 => Some MOVE | 2 => Some CLICK | 3 => Some TYPE | 4 => Some PRESS
  | 5 => Some SCROLL | 6 => Some DRAG | 7 => Some WAIT | 8 => Some SCREENSHOT
  | _ => None
  end%positive.

#[global] Instance ActionType_countable : Countable ActionType.
Proof.
  refine {| encode := ActionType_value; decode := ActionType_of_value |}.
  by intros [].
Defined.

(** [action_type.name] *)
Definition ActionType_name (t : ActionType) : string :=
  match t with
  | MOVE => "MOVE" | CLICK => "CLICK" | TYPE => "TYPE" | PRESS => "PRESS"
  | SCROLL => "SCROLL" | DRAG => "DRAG" | WAIT => "WAIT"
  | SCREENSHOT => "SCREENSHOT"
  end.

(** [ActionType[name]]; [None] stands for the [KeyError]. *)
Definition ActionType_of_name (name : string) : option ActionType :=
  if String.eqb name "MOVE" then Some MOVE
  else if String.eqb name "CLICK" then Some CLICK
  else if String.eqb name "TYPE" then Some TYPE
  else if String.eqb name "PRESS" then Some PRESS
  else if String.eqb name "SCROLL" then Some SCROLL
  else if String.eqb name "DRAG" then Some DRAG
  else if String.eqb name "WAIT" then Some WAIT
  else if String.eqb name "SCREENSHOT" then Some SCREENSHOT
  else None.

(** The fields carry the types of their annotations; [scroll_info] holds
    the integer deltas under the keys ["dx"] and ["dy"]. *)
Record ActionData : Type := {
  action_type : ActionType;
  timestamp : Q;
  element_info : option pydict;
  coordinates : option (Z * Z);
  text : option string;
  key_info : option pydict;
  scroll_info : option (gmap string Z);
  metadata : pydict;
}.

(** The dictionary of [ActionData.to_dict], [Action.to_dict] and
    [create_from_dict], one field per key.  On [d_timestamp] and
    [d_metadata], the two keys read with a default, [None] is a missing
    key; on the others it is a missing key or the value [None], which
    [dict.get] does not tell apart. *)
Record action_dict : Type := {
  d_action_type : option string;
  d_timestamp : option Q;
  d_element_info : option pydict;
  d_coordinates : option (Z * Z);
  d_text : option string;
  d_key_info : option pydict;
  d_scroll_info : option (gmap string Z);
  d_metadata : option pydict;
  d_action_id : option string;
  d_class_name : option string;
}.

Definition ActionData_to_dict (d : ActionData) : action_dict :=
  {| d_action_type := Some (ActionType_name (action_type d));
     d_timestamp := Some (timestamp d);
     d_element_info := element_info d;
     d_coordinates := coordinates d;
     d_text := text d;
     d_key_info := key_info d;
     d_scroll_info := scroll_info d;
     d_metadata := Some (metadata d);
     d_action_id := None;
     d_class_name := None |}.

(** Every exception of the module is a [ValueError]. *)
Inductive exn : Type := ValueError (msg : string).

Inductive result (A : Type) : Type :=
  | Ok (a : A)
  | Raise (e : exn).
Arguments Ok {A} a.
Arguments Raise {A} e.

Definition bind {A B} (r : result A) (k : A → result B) : result B :=
  match r with
  | Ok a => k a
  | Raise e => Raise e
  end.

(** The concrete subclasses of [Action]. *)
Inductive ActionClass : Type :=
  | MoveAction | ClickAction | TypeAction | ScrollAction.

#[global] Instance ActionClass_eq_dec : EqDecision ActionClass.
Proof. solve_decision. Defined.

Definition class_name (c : ActionClass) : string :=
  match c with
  | MoveAction => "MoveAction" | ClickAction => "ClickAction"
  | TypeAction => "TypeAction" | ScrollAction => "ScrollAction"
  end.

(** The kind each subclass checks for in its [__init__]. *)
Definition class_kind (c : ActionClass) : ActionType :=
  match c with
  | MoveAction => MOVE | ClickAction => CLICK
  | TypeAction => TYPE | ScrollAction => SCROLL
  end.

(** An [Action] object: its class, [self.data] and [self.action_id]. *)
Record Action : Type := {
  cls : ActionClass;
  data : ActionData;
  action_id : string;
}.

(** [Action.__init__]: the id comes from the member name and the clock
    reading [now] taken at construction. *)
Definition Action_id (now : Q) (d : ActionData) : string :=
  fmt_id (ActionType_name (action_type d)) (microseconds now).

(** [c(action_data)]: the base initialiser, then the kind check. *)
Definition Action_init (c : ActionClass) (now : Q) (d : ActionData)
    : result Action :=
  if decide (action_type d ≠ class_kind c) then
    Raise (ValueError ("ActionData must be of type "
                       +:+ ActionType_name (class_kind c)))
  else Ok {| cls := c; data := d; action_id := Action_id now d |}.

Definition Action_to_dict (a : Action) : action_dict :=
  let r := ActionData_to_dict (data a) in
  {| d_action_type := d_action_type r;
     d_timestamp := d_timestamp r;
     d_element_info := d_element_info r;
     d_coordinates := d_coordinates r;
     d_text := d_text r;
     d_key_info := d_key_info r;
     d_scroll_info := d_scroll_info r;
     d_metadata := d_metadata r;
     d_action_id := Some (action_id a);
     d_class_name := Some (class_name (cls a)) |}.

(** [abs(self.timestamp - other.timestamp)] *)
Definition time_diff (a b : Action) : Q :=
  Qabs (timestamp (data a) - timestamp (data b)).

(** [((x2 - x1) ** 2 + (y2 - y1) ** 2) ** 0.5 < 50], decided on the
    integer under the root: its square root is below 50 exactly when it is
    below 2500. *)
Definition distance_lt_50 (p1 p2 : Z * Z) : bool :=
  ((p2.1 - p1.1) ^ 2 + (p2.2 - p1.2) ^ 2 <? 2500)%Z.

(** [can_merge_with], dispatched on the class of [self]. *)
Definition can_merge_with (self other : Action) : bool :=
  match cls self with
  | MoveAction =>
      if negb (bool_decide (cls other = MoveAction)) then false
      else bool_decide (time_diff self other < 1 # 10)%Q
  | ClickAction => false
  | TypeAction =>
      if negb (bool_decide (cls other = TypeAction)) then false
      else bool_decide (time_diff self other < 1)%Q
  | ScrollAction =>
      if negb (bool_decide (cls other = ScrollAction)) then false
      else if bool_decide (1 # 2 < time_diff self other)%Q then false
      else
        match coordinates (data self), coordinates (data other) with
        | Some p1, Some p2 => distance_lt_50 p1 p2
        | _, _ => true
        end
  end.

(** [self.data.text or ""] *)
Definition text_or_empty (t : option string) : string := default "" t.

(** [scroll.get(key, 0)] on [self.data.scroll_info or {"dx": 0, "dy": 0}].
    An empty dictionary is falsy and replaced; the replacement and a
    missing key both read as 0. *)
Definition scroll_get (s : option (gmap string Z)) (key : string) : Z :=
  default 0%Z (default {[ "dx" := 0%Z; "dy" := 0%Z ]}
                 (dict_or s (Some {[ "dx" := 0%Z; "dy" := 0%Z ]})) !! key).

(** [merge_with], dispatched on the class of [self]; [now] is the clock
    reading of the [Action] the TYPE and SCROLL branches construct. *)
Definition merge_with (now : Q) (self other : Action) : result Action :=
  match cls self with
  | MoveAction =>
      if negb (can_merge_with self other) then
        Raise (ValueError "Cannot merge these actions")
      else if bool_decide (timestamp (data self) < timestamp (data other))%Q
      then Ok other
      else Ok self
  | ClickAction => Raise (ValueError "Click actions cannot be merged")
  | TypeAction =>
      if negb (can_merge_with self other) then
        Raise (ValueError "Cannot merge these actions")
      else
        let new_data :=
          if bool_decide (timestamp (data self) < timestamp (data other))%Q
          then
            {| action_type := TYPE;
               timestamp := timestamp (data other);
               element_info :=
                 dict_or (element_info (data other)) (element_info (data self));
               coordinates := None;
               text := Some (text_or_empty (text (data self))
                             +:+ text_or_empty (text (data other)));
               key_info := None;
               scroll_info := None;
               metadata :=
                 dict_merge (metadata (data self)) (metadata (data other)) |}
          else
            {| action_type := TYPE;
               timestamp := timestamp (data self);
               element_info :=
                 dict_or (element_info (data self)) (element_info (data other));
               coordinates := None;
               text := Some (text_or_empty (text (data other))
                             +:+ text_or_empty (text (data self)));
               key_info := None;
               scroll_info := None;
               metadata :=
                 dict_merge (metadata (data other)) (metadata (data self)) |}
        in
        Action_init TypeAction now new_data
  | ScrollAction =>
      if negb (can_merge_with self other) then
        Raise (ValueError "Cannot merge these actions")
      else
        let my_scroll := scroll_info (data self) in
        let other_scroll := scroll_info (data other) in
        let new_scroll : gmap string Z :=
          {[ "dx" := (scroll_get my_scroll "dx"
                      + scroll_get other_scroll "dx")%Z;
             "dy" := (scroll_get my_scroll "dy"
                      + scroll_get other_scroll "dy")%Z ]} in
        let later :=
          if bool_decide (timestamp (data self) < timestamp (data other))%Q
          then other else self in
        Action_init ScrollAction now
          {| action_type := SCROLL;
             timestamp := timestamp (data later);
             element_info :=
               dict_or (element_info (data other)) (element_info (data self));
             coordinates := coordinates (data later);
             text := None;
             key_info := None;
             scroll_info := Some new_scroll;
             metadata :=
               dict_merge (metadata (data self)) (metadata (data other)) |}
  end.

(** ** ActionFactory *)

(** The class attribute [_action_classes] as the module defines it. *)
Definition _action_classes : gmap ActionType ActionClass :=
  {[ MOVE := MoveAction; CLICK := ClickAction;
     TYPE := TypeAction; SCROLL := ScrollAction ]}.

(** [str(action_type)] of an enum member. *)
Definition ActionType_str (t : ActionType) : string :=
  "ActionType." +:+ ActionType_name t.

(** [create_action] on the registry [reg]. *)
Definition create_action (reg : gmap ActionType ActionClass) (now : Q)
    (d : ActionData) : result Action :=
  match reg !! action_type d with
  | None =>
      Raise (ValueError ("Unknown action type: "
                         +:+ ActionType_str (action_type d)))
  | Some action_class => Action_init action_class now d
  end.

(** [register_action_class], for a class that passes the [issubclass]
    check. *)
Definition register_action_class (reg : gmap ActionType ActionClass)
    (t : ActionType) (c : ActionClass) : gmap ActionType ActionClass :=
  <[t := c]> reg.

(** [create_from_dict].  [now_ts] is the reading taken for the default of
    the ["timestamp"] key, [now_id] the one taken by [Action.__init__]. *)
Definition create_from_dict (reg : gmap ActionType ActionClass)
    (now_ts now_id : Q) (d : action_dict) : result Action :=
  match d_action_type d with
  | None | Some "" =>
      Raise (ValueError "Missing action_type in action dictionary")
  | Some action_type_name =>
      match ActionType_of_name action_type_name with
      | None =>
          Raise (ValueError ("Invalid action_type: " +:+ action_type_name))
      | Some ty =>
          create_action reg now_id
            {| action_type := ty;
               timestamp := default now_ts (d_timestamp d);
               element_info := d_element_info d;
               coordinates := d_coordinates d;
               text := d_text d;
               key_info := d_key_info d;
               scroll_info := d_scroll_info d;
               metadata := default ∅ (d_metadata d) |}
      end
  end.

End Actions.

(** * recording/session.py *)
Module Session.

Inductive SessionState : Type :=
  | IDLE | PREPARING | RECORDING | PAUSED | STOPPING | STOPPED | ERROR.

#[global] Instance SessionState_eq_dec : EqDecision SessionState.
Proof. solve_decision. Defined.

Record SessionMetadata : Type := {
  m_session_id : string;
  start_time : option Q;
  end_time : option Q;
  task_name : option string;
  task_description : option string;
  user_id : option string;
  screen_resolution : option (Z * Z);
  platform : option string;
  version : string;
  tags : list string;
  custom_data : pydict;
}.

(** [SessionMetadata(session_id=sid)] *)
Definition SessionMetadata_init (sid : string) : SessionMetadata :=
  {| m_session_id := sid; start_time := None; end_time := None;
     task_name := None; task_description := None; user_id := None;
     screen_resolution := None; platform := None; version := "2.0";
     tags := []; custom_data := ∅ |}.

(** An observer is a callable known by its identity; what it does with the
    call, raising included, is swallowed by [_notify_state_change].
    Observers do not call back into the session. *)
Definition observer : Type := nat.

Record RecordingSession : Type := {
  session_id : string;
  recording_path : string;
  state : SessionState;
  metadata : SessionMetadata;
  _state_history : list (SessionState * Q);
  _event_count : nat;
  natural_scrolling : bool;
  generate_window_a11y : bool;
  generate_element_a11y : bool;
  _observers : list observer;
}.

(** [RecordingSession(session_id, recording_path)]; [uuid] is the value of
    [str(uuid.uuid4())]. *)
Definition RecordingSession_init (uuid : string) (sid : option string)
    (path : option string) : RecordingSession :=
  let sid' := match sid with None | Some "" => uuid | Some s => s end in
  {| session_id := sid';
     recording_path := default ("recording_" +:+ sid') path;
     state := IDLE;
     metadata := SessionMetadata_init sid';
     _state_history := [];
     _event_count := 0;
     natural_scrolling := true;
     generate_window_a11y := false;
     generate_element_a11y := true;
     _observers := [] |}.

(** One entry per call [observer(self, old_state, new_state)]. *)
Definition notification : Type := observer * SessionState * SessionState.

Definition _notify_state_change (s : RecordingSession)
    (old_state new_state : SessionState) : list notification :=
  map (λ o, (o, old_state, new_state)) (_observers s).

Definition with_metadata (s : RecordingSession) (m : SessionMetadata)
    : RecordingSession :=
  {| session_id := session_id s; recording_path := recording_path s;
     state := state s; metadata := m;
     _state_history := _state_history s; _event_count := _event_count s;
     natural_scrolling := natural_scrolling s;
     generate_window_a11y := generate_window_a11y s;
     generate_element_a11y := generate_element_a11y s;
     _observers := _observers s |}.

Definition set_start_time (m : SessionMetadata) (t : Q) : SessionMetadata :=
  {| m_session_id := m_session_id m; start_time := Some t;
     end_time := end_time m; task_name := task_name m;
     task_description := task_description m; user_id := user_id m;
     screen_resolution := screen_resolution m; platform := platform m;
     version := version m; tags := tags m; custom_data := custom_data m |}.

Definition set_end_time (m : SessionMetadata) (t : Q) : SessionMetadata :=
  {| m_session_id := m_session_id m; start_time := start_time m;
     end_time := Some t; task_name := task_name m;
     task_description := task_description m; user_id := user_id m;
     screen_resolution := screen_resolution m; platform := platform m;
     version := version m; tags := tags m; custom_data := custom_data m |}.

Definition set_platform (m : SessionMetadata) (p : string) : SessionMetadata :=
  {| m_session_id := m_session_id m; start_time := start_time m;
     end_time := end_time m; task_name := task_name m;
     task_description := task_description m; user_id := user_id m;
     screen_resolution := screen_resolution m; platform := Some p;
     version := version m; tags := tags m; custom_data := custom_data m |}.

Definition set_screen_resolution (m : SessionMetadata) (r : Z * Z)
    : SessionMetadata :=
  {| m_session_id := m_session_id m; start_time := start_time m;
     end_time := end_time m; task_name := task_name m;
     task_description := task_description m; user_id := user_id m;
     screen_resolution := Some r; platform := platform m;
     version := version m; tags := tags m; custom_data := custom_data m |}.

Definition set_custom_data (m : SessionMetadata) (k : string) (v : pyval)
    : SessionMetadata :=
  {| m_session_id := m_session_id m; start_time := start_time m;
     end_time := end_time m; task_name := task_name m;
     task_description := task_description m; user_id := user_id m;
     screen_resolution := screen_resolution m; platform := platform m;
     version := version m; tags := tags m;
     custom_data := <[k := v]> (custom_data m) |}.

(** [set_state]; [now] is its reading of [time.time()]. *)
Definition set_state (now : Q) (s : RecordingSession)
    (new_state : SessionState) : RecordingSession * list notification :=
  let old_state := state s in
  let m :=
    if decide (new_state = RECORDING ∧ old_state ≠ PAUSED) then
      set_start_time (metadata s) now
    else if decide (new_state = STOPPED ∧ end_time (metadata s) = None) then
      set_end_time (metadata s) now
    else metadata s in
  let s' :=
    {| session_id := session_id s; recording_path := recording_path s;
       state := new_state; metadata := m;
       _state_history := _state_history s ++ [(new_state, now)];
       _event_count := _event_count s;
       natural_scrolling := natural_scrolling s;
       generate_window_a11y := generate_window_a11y s;
       generate_element_a11y := generate_element_a11y s;
       _observers := _observers s |} in
  (s', _notify_state_change s' old_state new_state).

(** The table inside [can_transition_to]. *)
Definition valid_transitions (st : SessionState) : list SessionState :=
  match st with
  | IDLE => [PREPARING]
  | PREPARING => [RECORDING; ERROR]
  | RECORDING => [PAUSED; STOPPING]
  | PAUSED => [RECORDING; STOPPING]
  | STOPPING => [STOPPED; ERROR]
  | STOPPED => [IDLE]
  | ERROR => [IDLE; STOPPED]
  end.

Definition can_transition_to (s : RecordingSession) (new_state : SessionState)
    : bool :=
  bool_decide (new_state ∈ valid_transitions (state s)).

(** What a call returns: its value, the session afterwards, and the
    observer calls it made. *)
Definition outcome : Type := bool * RecordingSession * list notification.

(** The shape every guarded transition but [prepare] and [reset] has. *)
Definition guarded (target : SessionState) (now : Q) (s : RecordingSession)
    : outcome :=
  if negb (can_transition_to s target) then (false, s, [])
  else let '(s', ns) := set_state now s target in (true, s', ns).

(** How the body of the [try] in [prepare] goes: the directory creation,
    the provider lookup or [get_platform_name] raises; [get_screen_size]
    raises after the platform name was stored; or both values arrive. *)
Inductive prepare_env : Type :=
  | SetupRaises
  | ScreenSizeRaises (name : string)
  | Provided (name : string) (size : Z * Z).

Definition prepare (env : prepare_env) (now : Q) (s : RecordingSession)
    : outcome :=
  if negb (can_transition_to s PREPARING) then (false, s, [])
  else
    match env with
    | SetupRaises =>
        let '(s', ns) := set_state now s ERROR in (false, s', ns)
    | ScreenSizeRaises name =>
        let '(s', ns) :=
          set_state now (with_metadata s (set_platform (metadata s) name))
                    ERROR in
        (false, s', ns)
    | Provided name size =>
        let m := set_screen_resolution (set_platform (metadata s) name) size in
        let '(s', ns) := set_state now (with_metadata s m) PREPARING in
        (true, s', ns)
    end.

Definition start := guarded RECORDING.
Definition pause := guarded PAUSED.
Definition resume := guarded RECORDING.
Definition stop := guarded STOPPING.
Definition complete := guarded STOPPED.

(** [error(error_message)] returns nothing. *)
Definition error (error_message : string) (now : Q) (s : RecordingSession)
    : RecordingSession * list notification :=
  set_state now
    (with_metadata s
       (set_custom_data (metadata s) "error_message" (PyStr error_message)))
    ERROR.

Definition reset (now : Q) (s : RecordingSession) : outcome :=
  if negb (can_transition_to s IDLE) then (false, s, [])
  else
    let cleared :=
      {| session_id := session_id s; recording_path := recording_path s;
         state := state s;
         metadata := SessionMetadata_init (session_id s);
         _state_history := [];
         _event_count := 0;
         natural_scrolling := natural_scrolling s;
         generate_window_a11y := generate_window_a11y s;
         generate_element_a11y := generate_element_a11y s;
         _observers := _observers s |} in
    let '(s', ns) := set_state now cleared IDLE in (true, s', ns).

Definition increment_event_count (s : RecordingSession) : RecordingSession :=
  {| session_id := session_id s; recording_path := recording_path s;
     state := state s; metadata := metadata s;
     _state_history := _state_history s;
     _event_count := S (_event_count s);
     natural_scrolling := natural_scrolling s;
     generate_window_a11y := generate_window_a11y s;
     generate_element_a11y := generate_element_a11y s;
     _observers := _observers s |}.

(** The guarded calls and the state each asks for. *)
Inductive transition_call : Type :=
  | Prepare (env : prepare_env)
  | Start | Pause | Resume | Stop | Complete | Reset.

Definition target (c : transition_call) : SessionState :=
  match c with
  | Prepare _ => PREPARING
  | Start => RECORDING
  | Pause => PAUSED
  | Resume => RECORDING
  | Stop => STOPPING
  | Complete => STOPPED
  | Reset => IDLE
  end.

Definition run (c : transition_call) : Q → RecordingSession → outcome :=
  match c with
  | Prepare env => prepare env
  | Start => start
  | Pause => pause
  | Resume => resume
  | Stop => stop
  | Complete => complete
  | Reset => reset
  end.

End Session.

(** * Runs of the bus, and the specification's reading of a history query *)
Module BusRuns.
Import Events.

(** The public operations of [EventBus], with their arguments. *)
Inductive BusOp : Type :=
  | OpSubscribe (et : EventType) (h : EventHandler)
  | OpSubscribeFunction (ident : nat) (ets : list EventType)
                        (f : Event → option string)
  | OpSubscribeGlobal (h : EventHandler)
  | OpUnsubscribe (et : EventType) (h : EventHandler)
  | OpUnsubscribeGlobal (h : EventHandler)
  | OpPublish (clock : nat → Q) (e : Event)
  | OpCreateEvent (clock : nat → Q) (ty : EventType) (src : string)
                  (d : option pydict)
  | OpGetEventHistory (et : option EventType) (limit : Z)
  | OpClearHistory
  | OpGetHandlerCount (et : option EventType).

(** One operation on the bus.  The second component is a ghost log: the
    events handed to [publish] since the history was last cleared. *)
Definition step (st : EventBus * list Event) (op : BusOp)
    : EventBus * list Event :=
  let '(b, log) := st in
  match op with
  | OpSubscribe et h => (subscribe b et h, log)
  | OpSubscribeFunction ident ets f => (subscribe_function b ident ets f, log)
  | OpSubscribeGlobal h => (subscribe_global b h, log)
  | OpUnsubscribe et h => (unsubscribe b et h, log)
  | OpUnsubscribeGlobal h => (unsubscribe_global b h, log)
  | OpPublish clock e => ((publish clock b e).1, log ++ [e])
  | OpCreateEvent clock ty src d =>
      let r := create_event clock b ty src d in (r.1.1, log ++ [r.2])
  | OpGetEventHistory _ _ => (b, log)
  | OpClearHistory => (clear_history b, [])
  | OpGetHandlerCount _ => (b, log)
  end.

Definition run (ops : list BusOp) : EventBus * list Event :=
  foldl step (EventBus_init, []) ops.

(** The last [n] entries of a list. *)
Definition last_n {A} (n : nat) (l : list A) : list A :=
  drop (length l - n) l.

(** The history query as the specification words it: the [n] most recent
    events of the wanted type, or of any type without a filter. *)
Definition recent_of_type (history : list Event) (et : option EventType)
    (n : nat) : list Event :=
  last_n n
    (match et with
     | Some t => filter (λ e, event_type e = t) history
     | None => history
     end).

(** The invariant of a run: capacity 1000, and the history is the last
    1000 entries of the ghost log. *)
Definition history_inv (st : EventBus * list Event) : Prop :=
  _max_history st.1 = 1000
  ∧ _event_history st.1 = last_n 1000 st.2.

End BusRuns.

(** * The merge table of the specification, in its words *)
Module MergeTable.
Import Actions.

(** A scroll delta of an action: the entry of its [scroll_info], 0 when
    there is no [scroll_info] or no such entry. *)
Definition delta (a : Action) (key : string) : Z :=
  match scroll_info (data a) with
  | Some m => default 0%Z (m !! key)
  | None => 0%Z
  end.

(** Both actions have coordinates and these are less than 50 apart. *)
Definition within_50 (a b : Action) : Prop :=
  ∃ p1 p2,
    coordinates (data a) = Some p1 ∧ coordinates (data b) = Some p2
    ∧ ((p2.1 - p1.1) ^ 2 + (p2.2 - p1.2) ^ 2 < 50 ^ 2)%Z.

(** The SCROLL row: how far apart in time, and where. *)
Definition scroll_mergeable (bound_ok : Q → Prop) (a b : Action) : Prop :=
  bound_ok (Qabs (timestamp (data a) - timestamp (data b)))
  ∧ (coordinates (data a) = None ∨ coordinates (data b) = None
     ∨ within_50 a b).

(** An [element_info] is present when it is neither [None] nor empty. *)
Definition present (d : option pydict) : Prop :=
  ∃ m, d = Some m ∧ m ≠ ∅.

End MergeTable.

(** * Concrete inputs *)
Module Samples.

(** A handler that takes every event type and returns normally. *)
Definition quiet (ident : nat) : Events.EventHandler :=
  {| Events.handler_id := ident;
     Events.class_name := "Quiet";
     Events.can_handle := λ _, true;
     Events.handle_event := λ _, None |}.

Definition still : nat → Q := λ _, 0%Q.

Definition event_at (t : Events.EventType) (ts : Q) (ident : string)
    : Events.Event :=
  Events.Build_Event t ts "test" (Events.Payload ∅) ident.

Definition move1 := event_at Events.MOUSE_MOVED 1 "m1".
Definition move2 := event_at Events.MOUSE_MOVED 2 "m2".
Definition key3 := event_at Events.KEY_PRESSED 3 "k3".

(** A bus with handler 1 subscribed to [MOUSE_MOVED] and handler 2
    subscribed globally. *)
Definition one_each : Events.EventBus :=
  Events.subscribe_global
    (Events.subscribe Events.EventBus_init Events.MOUSE_MOVED (quiet 1))
    (quiet 2).

(** A bus on which [move1] and then [key3] were published. *)
Definition move_then_key : Events.EventBus :=
  (Events.publish still
     (Events.publish still Events.EventBus_init move1).1 key3).1.

(** Payloads of the four kinds the factory constructs. *)
Definition bare (k : Actions.ActionType) (ts : Q) : Actions.ActionData :=
  {| Actions.action_type := k; Actions.timestamp := ts;
     Actions.element_info := None; Actions.coordinates := None;
     Actions.text := None; Actions.key_info := None;
     Actions.scroll_info := None; Actions.metadata := ∅ |}.

Definition scroll_data (ts : Q) (xy : option (Z * Z)) (dx dy : Z)
    : Actions.ActionData :=
  {| Actions.action_type := Actions.SCROLL; Actions.timestamp := ts;
     Actions.element_info := None; Actions.coordinates := xy;
     Actions.text := None; Actions.key_info := None;
     Actions.scroll_info := Some {[ "dx" := dx; "dy" := dy ]};
     Actions.metadata := ∅ |}.

Definition type_data (ts : Q) (txt : string) : Actions.ActionData :=
  {| Actions.action_type := Actions.TYPE; Actions.timestamp := ts;
     Actions.element_info := None; Actions.coordinates := None;
     Actions.text := Some txt; Actions.key_info := None;
     Actions.scroll_info := None; Actions.metadata := ∅ |}.

(** The action object the factory returns for [d] at clock reading [now]. *)
Definition made (c : Actions.ActionClass) (now : Q) (d : Actions.ActionData)
    : Actions.Action :=
  {| Actions.cls := c; Actions.data := d;
     Actions.action_id := Actions.Action_id now d |}.

(** Two scrolls exactly half a second and about 11.2 pixels apart. *)
Definition scroll_a :=
  made Actions.ScrollAction 7 (scroll_data 0 (Some (100, 100)%Z) 1 2).
Definition scroll_b :=
  made Actions.ScrollAction 8 (scroll_data (1 # 2) (Some (110, 105)%Z) 3 (-1)).
Definition type_x := made Actions.TypeAction 7 (type_data 1 "x").
Definition type_y := made Actions.TypeAction 8 (type_data 1 "y").
Definition type_hello := made Actions.TypeAction 7 (type_data 1 "Hello").
Definition type_world := made Actions.TypeAction 8 (type_data (3 # 2) " World").

(** The pair of the specification's SCROLL example. *)
Definition scroll_c :=
  made Actions.ScrollAction 7 (scroll_data (1 # 10) (Some (100, 100)%Z) 1 2).
Definition scroll_d :=
  made Actions.ScrollAction 8 (scroll_data (3 # 10) (Some (110, 105)%Z) 3 (-1)).

(** 1001 publishes on a new bus, with timestamps 0 to 1000. *)
Definition publish_1001 : list BusRuns.BusOp :=
  map (λ n, BusRuns.OpPublish still
              (event_at Events.KEY_PRESSED (inject_Z (Z.of_nat n)) "k"))
      (seq 0 1001).

(** A new session with the id ["s1"]. *)
Definition fresh_session : Session.RecordingSession :=
  Session.RecordingSession_init "uuid" (Some "s1") None.

End Samples.

(** * Sequences of publishes *)
Module PublishRuns.
Import Events.

(** [for e in es: bus.publish(e)], the calls dropped. *)
Definition publish_each (clock : nat → Q) (b : EventBus) (es : list Event)
    : EventBus :=
  foldl (λ b' e, (publish clock b' e).1) b es.

(** The handlers [publish] dispatches an event to: the list stored for its
    type, then the global handlers. *)
Definition dispatch_list (b : EventBus) (e : Event) : list EventHandler :=
  default [] (_handlers b !! event_type e) ++ _global_handlers b.

(** The entries of a dispatch list that take the type of [e]. *)
Definition accepting (e : Event) (hs : list EventHandler)
    : list EventHandler :=
  filter (λ h, can_handle h (event_type e) = true) hs.

(** A handler that takes every type and raises on every event. *)
Definition faulty (ident : nat) : EventHandler :=
  {| handler_id := ident;
     class_name := "Faulty";
     can_handle := λ _, true;
     handle_event := λ _, Some "boom" |}.

End PublishRuns.
(** * Replaying actions: the [execute] methods *)
Module Replay.
Import Actions.

(** The calls [execute] makes into [pyautogui]. *)
Inductive gui_call : Type :=
  | MoveTo (x y : Z)
  | Click (x y : Z) (button : pyval)
  | Write (text : string)
  | Scroll (clicks : Z) (x y : Z).

(** What [execute] finds: whether [import pyautogui] succeeds, and what
    [pyautogui.position()] returns.  The calls themselves return. *)
Record gui_env : Type := {
  pyautogui_available : bool;
  position : Z * Z;
}.

(** [execute], dispatched on the class of [self]: the value returned and
    the calls made.  The import comes after the test of the payload, so a
    missing payload makes no call and a failed import makes none either. *)
Definition execute (env : gui_env) (self : Action) : bool * list gui_call :=
  match cls self with
  | MoveAction =>
      match coordinates (data self) with
      | Some (x, y) =>
          if pyautogui_available env then (true, [MoveTo x y])
          else (false, [])
      | None => (false, [])
      end
  | ClickAction =>
      match coordinates (data self) with
      | Some (x, y) =>
          if pyautogui_available env then
            (true, [Click x y (default (PyStr "left")
                                 (metadata (data self) !! "button"))])
          else (false, [])
      | None => (false, [])
      end
  | TypeAction =>
      match text (data self) with
      | None | Some "" => (false, [])
      | Some t =>
          if pyautogui_available env then (true, [Write t]) else (false, [])
      end
  | ScrollAction =>
      if dict_truthy (scroll_info (data self)) then
        if pyautogui_available env then
          let dy := default 0%Z (default ∅ (scroll_info (data self)) !! "dy") in
          let '(x, y) := default (position env) (coordinates (data self)) in
          (true, [Scroll dy x y])
        else (false, [])
      else (false, [])
  end.

End Replay.

(** * Well-formed actions and dictionaries *)
Module ActionShape.
Import Actions.

(** The payload kind is the one the class of the object checks for. *)
Definition well_formed (a : Action) : Prop :=
  action_type (data a) = class_kind (cls a).

(** The class the module's registry holds for a kind. *)
Definition default_class (k : ActionType) : option ActionClass :=
  match k with
  | MOVE => Some MoveAction
  | CLICK => Some ClickAction
  | TYPE => Some TypeAction
  | SCROLL => Some ScrollAction
  | _ => None
  end.

(** The eight member names. *)
Definition member_names : list string :=
  map ActionType_name [MOVE; CLICK; TYPE; PRESS; SCROLL; DRAG; WAIT; SCREENSHOT].

(** A dictionary with nothing but a kind name. *)
Definition only_kind (name : option string) : action_dict :=
  {| d_action_type := name; d_timestamp := None; d_element_info := None;
     d_coordinates := None; d_text := None; d_key_info := None;
     d_scroll_info := None; d_metadata := None; d_action_id := None;
     d_class_name := None |}.

(** The action has the payload its [execute] replays: coordinates for
    MOVE and CLICK, a non-empty text for TYPE, a non-empty [scroll_info]
    for SCROLL. *)
Definition replayable (a : Action) : bool :=
  match cls a with
  | MoveAction | ClickAction => bool_decide (coordinates (data a) ≠ None)
  | TypeAction =>
      bool_decide (text (data a) ≠ None ∧ text (data a) ≠ Some "")
  | ScrollAction =>
      bool_decide (scroll_info (data a) ≠ None
                   ∧ scroll_info (data a) ≠ Some ∅)
  end.

End ActionShape.
(** * platform/provider.py and the adapters *)
Module Platform.

(** The three subclasses of [PlatformProvider]. *)
Inductive Adapter : Type := DarwinAdapter | WindowsAdapter | LinuxAdapter.

#[global] Instance Adapter_eq_dec : EqDecision Adapter.
Proof. solve_decision. Defined.

Definition get_platform_name (a : Adapter) : string :=
  match a with
  | DarwinAdapter => "darwin"
  | WindowsAdapter => "windows"
  | LinuxAdapter => "linux"
  end.

Inductive exn : Type := RuntimeError (msg : string).

(** [detect_platform]; [system] is the value of
    [platform.system().lower()]. *)
Definition detect_platform (system : string) : exn + string :=
  if String.eqb system "darwin" then inr "darwin"
  else if String.eqb system "windows" then inr "windows"
  else if String.eqb system "linux" then inr "linux"
  else inl (RuntimeError ("Unsupported platform: " +:+ system)).

(** [get_platform_provider(force_platform)]: [force_platform or
    detect_platform()], so [None] and the empty string both detect. *)
Definition get_platform_provider (force_platform : option string)
    (system : string) : exn + Adapter :=
  let platform_name :=
    match force_platform with
    | None | Some "" => detect_platform system
    | Some name => inr name
    end in
  match platform_name with
  | inl e => inl e
  | inr name =>
      if String.eqb name "darwin" then inr DarwinAdapter
      else if String.eqb name "windows" then inr WindowsAdapter
      else if String.eqb name "linux" then inr LinuxAdapter
      else inl (RuntimeError ("No provider available for platform: "
                              +:+ name))
  end.

(** What [import pyautogui; pyautogui.size()] does. *)
Inductive pyautogui_size : Type :=
  | NotInstalled
  | SizeRaises
  | Size (width height : Z).

(** [get_screen_size], the same in the three adapters: the fallback
    (1920, 1080) on [ImportError]; [None] is any other exception, which the
    method lets through. *)
Definition get_screen_size (a : Adapter) (p : pyautogui_size)
    : option (Z * Z) :=
  match p with
  | NotInstalled => Some (1920, 1080)%Z
  | SizeRaises => None
  | Size w h => Some (w, h)
  end.

(** The body of the [try] in [RecordingSession.prepare] up to the state
    change: the directory, the provider, its name, the screen size. *)
Definition prepare_env_of (mkdir_ok : bool) (system : string)
    (p : pyautogui_size) : Session.prepare_env :=
  if negb mkdir_ok then Session.SetupRaises
  else
    match get_platform_provider None system with
    | inl _ => Session.SetupRaises
    | inr provider =>
        match get_screen_size provider p with
        | None => Session.ScreenSizeRaises (get_platform_name provider)
        | Some size => Session.Provided (get_platform_name provider) size
        end
    end.

(** The system is one [detect_platform] knows. *)
Definition supported (system : string) : bool :=
  bool_decide (system ∈ ["darwin"; "windows"; "linux"]).

(** The size [get_screen_size] returns, when it returns. *)
Definition size_or_fallback (p : pyautogui_size) : option (Z * Z) :=
  match p with
  | NotInstalled => Some (1920, 1080)%Z
  | SizeRaises => None
  | Size w h => Some (w, h)
  end.

End Platform.

(** * The rest of recording/session.py, and runs of a session *)
Module SessionRuns.
Import Session.

Definition with_observers (s : RecordingSession) (os : list observer)
    : RecordingSession :=
  {| session_id := session_id s; recording_path := recording_path s;
     state := state s; metadata := metadata s;
     _state_history := _state_history s; _event_count := _event_count s;
     natural_scrolling := natural_scrolling s;
     generate_window_a11y := generate_window_a11y s;
     generate_element_a11y := generate_element_a11y s;
     _observers := os |}.

Definition add_observer (s : RecordingSession) (o : observer)
    : RecordingSession :=
  with_observers s (_observers s ++ [o]).

(** [list.remove]: the first entry equal to [o] goes. *)
Fixpoint remove_first (o : observer) (l : list observer) : list observer :=
  match l with
  | [] => []
  | x :: rest => if decide (x = o) then rest else x :: remove_first o rest
  end.

(** [remove_observer]: guarded by [observer in self._observers]. *)
Definition remove_observer (s : RecordingSession) (o : observer)
    : RecordingSession :=
  if bool_decide (o ∈ _observers s)
  then with_observers s (remove_first o (_observers s))
  else s.

Definition event_count (s : RecordingSession) : nat := _event_count s.

Definition is_active (s : RecordingSession) : bool :=
  bool_decide (state s = RECORDING).

Definition is_finished (s : RecordingSession) : bool :=
  bool_decide (state s ∈ [STOPPED; ERROR]).

Definition get_state_history (s : RecordingSession)
    : list (SessionState * Q) :=
  _state_history s.

(** Truthiness of an [Optional[float]]: [None] and [0.0] are falsy. *)
Definition float_truthy (x : option Q) : bool :=
  match x with
  | None => false
  | Some q => negb (Qeq_bool q 0)
  end.

(** The [duration] property of [SessionMetadata]. *)
Definition duration (m : SessionMetadata) : option Q :=
  if float_truthy (start_time m) && float_truthy (end_time m) then
    match start_time m, end_time m with
    | Some s, Some e => Some (e - s)%Q
    | _, _ => None
    end
  else None.

(** The calls a controller makes on a session. *)
Inductive SessionOp : Type :=
  | Call (c : transition_call) (now : Q)
  | ErrorOp (message : string) (now : Q)
  | Increment
  | AddObserver (o : observer)
  | RemoveObserver (o : observer).

(** The session after one call; what the call returned and whom it
    notified is dropped. *)
Definition apply_op (s : RecordingSession) (op : SessionOp)
    : RecordingSession :=
  match op with
  | Call c now => (run c now s).1.2
  | ErrorOp message now => (error message now s).1
  | Increment => increment_event_count s
  | AddObserver o => add_observer s o
  | RemoveObserver o => remove_observer s o
  end.

Definition run_ops (s : RecordingSession) (ops : list SessionOp)
    : RecordingSession :=
  foldl apply_op s ops.

(** The environment of a call lets it go through: only [prepare] depends
    on one. *)
Definition env_provides (c : transition_call) : bool :=
  match c with
  | Prepare (Provided _ _) => true
  | Prepare _ => false
  | _ => true
  end.

Definition is_reset (c : transition_call) : bool :=
  match c with
  | Reset => true
  | _ => false
  end.

(** The last state the history records agrees with the current state; an
    empty history belongs to an idle session. *)
Definition history_agrees (s : RecordingSession) : Prop :=
  match last (_state_history s) with
  | None => state s = IDLE
  | Some (st, _) => st = state s
  end.

(** One full recording: prepare, start, pause, resume, stop, complete. *)
Definition full_recording (name : string) (size : Z * Z)
    (t1 t2 t3 t4 t5 t6 : Q) : list SessionOp :=
  [Call (Prepare (Provided name size)) t1; Call Start t2; Call Pause t3;
   Call Resume t4; Call Stop t5; Call Complete t6].

End SessionRuns.
(** * files/encryption.py: [NoEncryption] and [SimpleEncryption] *)
Module Encryption.

(** A [bytes] object, one integer per byte. *)
Abbreviation bytes := (list Z).

Definition bytes_of_string (s : string) : bytes :=
  map (λ c, Z.of_N (Ascii.N_of_ascii c)) (list_ascii_of_string s).

(** [b"ENCRYPTED_V1:"] *)
Definition header : bytes := bytes_of_string "ENCRYPTED_V1:".

(** [data.startswith(prefix)] *)
Definition startswith (data prefix : bytes) : bool :=
  bool_decide (take (length prefix) data = prefix).

(** [_xor_encrypt_decrypt]: byte [i] of the data with byte [i % key_len]
    of the key.  [None] is the [ZeroDivisionError] of an empty key on
    non-empty data. *)
Definition _xor_encrypt_decrypt (key_bytes data : bytes) : option bytes :=
  match key_bytes, data with
  | [], _ :: _ => None
  | _, _ =>
      Some (imap (λ i x,
                    Z.lxor x (default 0%Z
                                (key_bytes !! (i mod length key_bytes))))
                 data)
  end.

Section Codecs.

(** The library functions the providers call: [json.dumps] and
    [json.loads] ([None] for [JSONDecodeError]), [str.encode('utf-8')] and
    [bytes.decode('utf-8')] ([None] for [UnicodeDecodeError]),
    [base64.b64encode] and [base64.b64decode] ([None] for its error). *)
Variable json : Type.
Variable json_dumps : pydict → string.
Variable json_loads : string → option json.
Variable utf8_encode : string → bytes.
Variable utf8_decode : bytes → option string.
Variable b64encode : bytes → bytes.
Variable b64decode : bytes → option bytes.

(** The argument of [encrypt_data]: [Union[str, bytes, Dict]]. *)
Inductive plain : Type :=
  | PDict (d : pydict)
  | PStr (s : string)
  | PBytes (b : bytes).

(** The value of [decrypt_data]: a parsed JSON value, a string, or bytes. *)
Inductive decoded : Type :=
  | DJson (v : json)
  | DStr (s : string)
  | DBytes (b : bytes).

(** The two [isinstance] steps that open both [encrypt_data] methods. *)
Definition to_bytes (data : plain) : bytes :=
  match data with
  | PDict d => utf8_encode (json_dumps d)
  | PStr s => utf8_encode s
  | PBytes b => b
  end.

(** The nested [try] that closes both [decrypt_data] methods: JSON first,
    then a string, then the bytes as they are. *)
Definition sniff (b : bytes) : decoded :=
  match utf8_decode b with
  | Some text =>
      match json_loads text with
      | Some v => DJson v
      | None => DStr text
      end
  | None => DBytes b
  end.

(** [NoEncryption] *)
Definition NoEncryption_encrypt_data (data : plain) : bytes := to_bytes data.
Definition NoEncryption_decrypt_data (encrypted_data : bytes) : decoded :=
  sniff encrypted_data.

(** [SimpleEncryption.encrypt_data]; [None] when the XOR step raises. *)
Definition encrypt_data (key_bytes : bytes) (data : plain) : option bytes :=
  match _xor_encrypt_decrypt key_bytes (to_bytes data) with
  | Some encrypted => Some (header ++ b64encode encrypted)
  | None => None
  end.

(** [SimpleEncryption.decrypt_data]: data without the header comes back
    as it is, and so does data on which any step raises. *)
Definition decrypt_data (key_bytes : bytes) (encrypted_data : bytes)
    : decoded :=
  if negb (startswith encrypted_data header) then DBytes encrypted_data
  else
    match b64decode (drop (length header) encrypted_data) with
    | None => DBytes encrypted_data
    | Some encrypted_bytes =>
        match _xor_encrypt_decrypt key_bytes encrypted_bytes with
        | None => DBytes encrypted_data
        | Some decrypted => sniff decrypted
        end
    end.

End Codecs.

Arguments DJson {json} v.
Arguments DStr {json} s.
Arguments DBytes {json} b.

(** [SimpleEncryption(key)]: [key or self._generate_key()], encoded;
    [generated] is the encoded key [_generate_key] returns. *)
Definition SimpleEncryption_key_bytes (key : option bytes) (generated : bytes)
    : bytes :=
  match key with
  | None | Some [] => generated
  | Some k => k
  end.

End Encryption.

(** * Facts about the event bus *)
Module EventBusFacts.
Import Events BusRuns Samples.

(** ** Dispatch *)

(** The stored list of a subscribed type grows by the global handlers on
    every publish of that type. *)
Lemma publish_registry (clock : nat → Q) (b : EventBus) (e : Event)
    (l : list EventHandler) :
  _handlers b !! event_type e = Some l →
  _handlers (publish clock b e).1 !! event_type e
  = Some (l ++ _global_handlers b).
Proof.
  intros Hl. unfold publish. cbn. rewrite Hl. cbn. by rewrite lookup_insert_eq.
Qed.

Lemma publish_global_handlers (clock : nat → Q) (b : EventBus) (e : Event) :
  _global_handlers (publish clock b e).1 = _global_handlers b.
Proof. done. Qed.

(** Handlers that take the type and return are each called once, in list
    order. *)
Lemma handler_loop_quiet reg clock (e : Event) (hs : list EventHandler) n :
  Forall (λ h, can_handle h (event_type e) = true ∧ handle_event h e = None) hs →
  handler_loop reg clock e hs n = map (λ h, (handler_id h, e)) hs.
Proof.
  induction 1 as [| h hs [Hc Hh] _ IH]; cbn; [done |].
  by rewrite Hc, Hh, IH.
Qed.

(** What one publish calls, for handlers that take the type and return. *)
Lemma publish_calls_quiet (clock : nat → Q) (b : EventBus) (e : Event) :
  Forall (λ h, can_handle h (event_type e) = true ∧ handle_event h e = None)
         (default [] (_handlers b !! event_type e) ++ _global_handlers b) →
  (publish clock b e).2
  = map (λ h, (handler_id h, e))
        (default [] (_handlers b !! event_type e) ++ _global_handlers b).
Proof. intros H. unfold publish. cbn. by apply handler_loop_quiet. Qed.

(** The second of two publishes of one type calls the global handlers
    twice. *)
Lemma publish_twice_calls (c1 c2 : nat → Q) (b : EventBus) (e1 e2 : Event)
    (l : list EventHandler) :
  event_type e2 = event_type e1 →
  _handlers b !! event_type e1 = Some l →
  Forall (λ h, can_handle h (event_type e2) = true ∧ handle_event h e2 = None)
         (l ++ _global_handlers b) →
  (publish c2 (publish c1 b e1).1 e2).2
  = map (λ h, (handler_id h, e2))
        (l ++ _global_handlers b ++ _global_handlers b).
Proof.
  intros Hty Hl Hq. rewrite Hty in Hq.
  pose proof (publish_registry c1 b e1 l Hl) as Hreg.
  rewrite publish_calls_quiet; rewrite Hty, Hreg, publish_global_handlers; cbn.
  - by rewrite <- (assoc_L (++)).
  - apply Forall_app. split; [done |].
    apply Forall_app in Hq as [_ Hg]. done.
Qed.

(** C1.  On a bus with handler 1 subscribed to MOUSE_MOVED and handler 2
    subscribed globally, the first publish of a MOUSE_MOVED event calls
    handler 1 then handler 2, once each; the second publish calls the
    global handler 2 twice, and the list stored for MOUSE_MOVED has taken
    in the global handler once per publish. *)
Theorem publish_second_time_repeats_global_handler :
  let r1 := publish still one_each move1 in
  let r2 := publish still r1.1 move2 in
  r1.2 = [(1, move1); (2, move1)]
  ∧ r2.2 = [(1, move2); (2, move2); (2, move2)]
  ∧ (map handler_id <$> _handlers one_each !! MOUSE_MOVED) = Some [1]
  ∧ (map handler_id <$> _handlers r2.1 !! MOUSE_MOVED) = Some [1; 2; 2]
  ∧ get_handler_count one_each None = 2
  ∧ get_handler_count r2.1 None = 4.
Proof. vm_compute. repeat split; reflexivity. Qed.

(** ** History query *)

Lemma slice_from_neg_last_n {A} (l : list A) (n : Z) :
  (1 ≤ n)%Z → slice_from_neg l n = last_n (Z.to_nat n) l.
Proof.
  intros Hn. unfold slice_from_neg, last_n.
  destruct (Z.ltb_spec 0 n); [done | lia].
Qed.

Lemma last_n_length {A} (n : nat) (l : list A) : length (last_n n l) ≤ n.
Proof. unfold last_n. rewrite length_drop. lia. Qed.

(** A suffix no longer than [n] lies within the last [n] entries. *)
Lemma suffix_last_n {A} (n : nat) (s l : list A) :
  s `suffix_of` l → length s ≤ n → s `suffix_of` last_n n l.
Proof.
  intros [k ->] Hlen. unfold last_n. rewrite length_app.
  destruct (decide (length k + length s - n ≤ length k)) as [Hle | Hgt].
  - rewrite drop_app_le by done. apply suffix_app_r. done.
  - assert (length s = n ∧ length k = length k + length s - n) as [_ Hk] by lia.
    rewrite <- Hk. by rewrite drop_app_length.
Qed.

Lemma filter_suffix {A} (P : A → Prop) `{∀ x, Decision (P x)} (s l : list A) :
  s `suffix_of` l → filter P s `suffix_of` filter P l.
Proof. intros [k ->]. rewrite filter_app. by apply suffix_app_r. Qed.

(** C2, the claim as worded, fails: after MOUSE_MOVED and then KEY_PRESSED
    were published, the query for the one most recent MOUSE_MOVED event
    returns nothing, although the history holds such an event. *)
Lemma get_event_history_misses_older_match :
  _event_history move_then_key = [move1; key3]
  ∧ get_event_history move_then_key (Some MOUSE_MOVED) 1 = []
  ∧ recent_of_type (_event_history move_then_key) (Some MOUSE_MOVED) 1
    = [move1]
  ∧ get_event_history move_then_key (Some MOUSE_MOVED) 1
    ≠ recent_of_type (_event_history move_then_key) (Some MOUSE_MOVED) 1.
Proof. vm_compute. repeat split; [reflexivity .. | discriminate]. Qed.

(** C2, amended.  For a limit [n ≥ 1] the query cuts the history down to
    its [n] most recent entries first and applies the type filter to that
    window: it returns, most recent last, the events of the wanted type
    among the [n] most recent entries of any type (the window itself
    without a filter).  The answer has at most [n] entries and is the most
    recent end of the list the specification describes; the two agree
    without a filter. *)
Theorem get_event_history_filters_the_window (b : EventBus)
    (et : option EventType) (n : Z) :
  (1 ≤ n)%Z →
  let window := last_n (Z.to_nat n) (_event_history b) in
  get_event_history b et n
  = match et with
    | Some t => filter (λ e, event_type e = t) window
    | None => window
    end
  ∧ length (get_event_history b et n) ≤ Z.to_nat n
  ∧ get_event_history b et n
    `suffix_of` recent_of_type (_event_history b) et (Z.to_nat n)
  ∧ (et = None →
     get_event_history b et n
     = recent_of_type (_event_history b) et (Z.to_nat n)).
Proof.
  intros Hn window. unfold get_event_history.
  rewrite slice_from_neg_last_n by done. fold window.
  assert (length window ≤ Z.to_nat n) as Hw by apply last_n_length.
  assert (window `suffix_of` _event_history b) as Hs by apply suffix_drop.
  destruct et as [t |]; cbn.
  - pose proof (length_filter (λ e, event_type e = t) window) as Hf.
    repeat split; [lia | | done].
    apply suffix_last_n; [by apply filter_suffix | lia].
  - repeat split; done.
Qed.

Lemma get_event_history_filters_the_window_witness :
  (1 ≤ 1)%Z
  ∧ get_event_history move_then_key (Some MOUSE_MOVED) 1
    = filter (λ e, event_type e = MOUSE_MOVED)
             (last_n 1 (_event_history move_then_key)).
Proof.
  split; [lia |].
  exact (proj1 (get_event_history_filters_the_window
                  move_then_key (Some MOUSE_MOVED) 1 ltac:(lia))).
Defined.

(** ** History bound *)

(** What [publish] does to the history: append, then drop the head when
    the list has outgrown the capacity. *)
Lemma publish_history (clock : nat → Q) (b : EventBus) (e : Event) :
  _event_history (publish clock b e).1
  = if decide (length (_event_history b) < _max_history b)
    then _event_history b ++ [e]
    else tail (_event_history b ++ [e]).
Proof.
  unfold publish. cbn. rewrite length_app. cbn.
  repeat case_decide; done || lia.
Qed.

Lemma publish_max_history (clock : nat → Q) (b : EventBus) (e : Event) :
  _max_history (publish clock b e).1 = _max_history b.
Proof. done. Qed.

Lemma last_n_snoc_tail {A} (cap : nat) (log : list A) (x : A) :
  0 < cap →
  last_n cap (log ++ [x])
  = if decide (length (last_n cap log) < cap)
    then last_n cap log ++ [x]
    else tail (last_n cap log ++ [x]).
Proof.
  intros Hcap. unfold last_n. rewrite length_drop, length_app. cbn.
  case_decide as Hlt.
  - replace (length log - cap) with 0 by lia.
    replace (length log + 1 - cap) with 0 by lia. done.
  - replace (length log + 1 - cap) with (length log - cap + 1) by lia.
    rewrite <- drop_drop. rewrite drop_app_le by lia. done.
Qed.

Lemma publish_inv clock (b : EventBus) (log : list Event) (e : Event) :
  history_inv (b, log) → history_inv ((publish clock b e).1, log ++ [e]).
Proof.
  unfold history_inv. cbn [fst snd]. intros [Hmax Hh].
  split; [by rewrite publish_max_history |].
  rewrite publish_history, last_n_snoc_tail by lia.
  rewrite Hmax, Hh. done.
Qed.

Lemma subscribe_function_history b ident ets f :
  _max_history (subscribe_function b ident ets f) = _max_history b
  ∧ _event_history (subscribe_function b ident ets f) = _event_history b.
Proof.
  unfold subscribe_function.
  generalize (FunctionEventHandler ident f ets) as h.
  intros h. revert b. induction ets as [| t ts IH]; intros b; [done |].
  cbn. destruct (IH (subscribe b t h)) as [-> ->]. done.
Qed.

Lemma step_inv (st : EventBus * list Event) (op : BusOp) :
  history_inv st → history_inv (step st op).
Proof.
  destruct st as [b log]. intros Hinv.
  destruct op; cbn [step]; try exact Hinv.
  - (* subscribe_function *)
    destruct Hinv as [Hmax Hh]. cbn [fst snd] in *.
    destruct (subscribe_function_history b ident ets f) as [H1 H2].
    split; cbn [fst snd]; congruence.
  - (* unsubscribe *)
    unfold unsubscribe. destruct (_handlers b !! et); exact Hinv.
  - (* publish *)
    by apply publish_inv.
  - (* create_event *)
    unfold create_event. cbn [fst snd]. by apply publish_inv.
  - (* clear_history *)
    destruct Hinv as [Hmax _]. split; done.
Qed.

Lemma run_inv (ops : list BusOp) : history_inv (run ops).
Proof.
  unfold run.
  assert (history_inv (EventBus_init, [])) as H0 by (split; done).
  revert H0. generalize (EventBus_init, @nil Event).
  induction ops as [| op ops IH]; intros st Hst; [done |].
  cbn. apply IH. by apply step_inv.
Qed.

Example history_after_1001_publishes :
  let h := _event_history (run publish_1001).1 in
  length h = 1000
  ∧ timestamp <$> head h = Some (inject_Z 1)
  ∧ timestamp <$> last h = Some (inject_Z 1000).
Proof. by vm_compute. Qed.

(** C9.  After any sequence of bus operations on a new bus the history
    has at most 1000 events, and it is the last 1000 (or all, when fewer)
    of the events published since the history was last cleared, in publish
    order.  A further publish appends its event and, when that makes 1001
    entries, removes the oldest one. *)
Theorem history_bounded_fifo (ops : list BusOp) :
  let b := (run ops).1 in
  let published := (run ops).2 in
  length (_event_history b) ≤ 1000
  ∧ _event_history b = last_n 1000 published
  ∧ ∀ clock e,
      _event_history (publish clock b e).1
      = if decide (length (_event_history b) < 1000)
        then _event_history b ++ [e]
        else tail (_event_history b) ++ [e].
Proof.
  intros b published. destruct (run_inv ops) as [Hmax Hh].
  fold b in Hmax, Hh. fold published in Hh.
  split; [rewrite Hh; apply last_n_length |].
  split; [done |].
  intros clock e. rewrite publish_history, Hmax.
  case_decide as Hlt; [done |].
  destruct (_event_history b) as [| x h] eqn:E; [cbn in Hlt; lia | done].
Qed.

End EventBusFacts.

(** * Facts about the action model and its factory *)
Module ActionFacts.
Import Actions Samples.

Lemma ActionType_of_name_name (t : ActionType) :
  ActionType_of_name (ActionType_name t) = Some t.
Proof. by destruct t. Qed.

Lemma ActionType_name_nonempty (t : ActionType) : ActionType_name t ≠ "".
Proof. by destruct t. Qed.

(** Decoding a dictionary written by [to_dict] reaches [create_action] with
    the payload the action carries. *)
Lemma create_from_dict_to_dict reg (now_ts now_id : Q) (a : Action) :
  create_from_dict reg now_ts now_id (Action_to_dict a)
  = create_action reg now_id (data a).
Proof.
  unfold create_from_dict. cbn.
  destruct (ActionType_name (action_type (data a))) eqn:E.
  - by destruct (ActionType_name_nonempty (action_type (data a))).
  - rewrite <- E, ActionType_of_name_name. by destruct a as [c []].
Qed.

Lemma create_action_data reg now d a :
  create_action reg now d = Ok a →
  data a = d ∧ reg !! action_type d = Some (cls a)
  ∧ action_id a = Action_id now d.
Proof.
  unfold create_action, Action_init.
  destruct (reg !! action_type d) as [c |]; [| done].
  case_decide; [done |]. by intros [= <-].
Qed.

(** C10.  The registry the module defines has the four keys MOVE, CLICK,
    TYPE and SCROLL and no other.  For a payload of kind PRESS, DRAG, WAIT
    or SCREENSHOT, [create_action] raises the unknown-action-type error, and
    so does [create_from_dict] on every dictionary whose ["action_type"] is
    the name of that kind. *)
Theorem unregistered_kinds_are_rejected (k : ActionType) :
  k ∈ [PRESS; DRAG; WAIT; SCREENSHOT] →
  dom _action_classes = {[MOVE; CLICK; TYPE; SCROLL]}
  ∧ _action_classes !! k = None
  ∧ (∀ now d,
       action_type d = k →
       create_action _action_classes now d
       = Raise (ValueError ("Unknown action type: ActionType."
                            +:+ ActionType_name k)))
  ∧ (∀ now_ts now_id dict,
       d_action_type dict = Some (ActionType_name k) →
       create_from_dict _action_classes now_ts now_id dict
       = Raise (ValueError ("Unknown action type: ActionType."
                            +:+ ActionType_name k))).
Proof.
  intros Hk.
  assert (_action_classes !! k = None) as Hnone.
  { rewrite !elem_of_cons in Hk.
    destruct Hk as [-> | [-> | [-> | [-> | Hk]]]];
      [done .. | by apply elem_of_nil in Hk]. }
  split; [by vm_compute |]. split; [done |]. split.
  - intros now d <-. unfold create_action. by rewrite Hnone.
  - intros now_ts now_id dict Hd. unfold create_from_dict. rewrite Hd.
    destruct (ActionType_name k) eqn:E.
    + by destruct (ActionType_name_nonempty k).
    + rewrite <- E, ActionType_of_name_name.
      unfold create_action. cbn. by rewrite Hnone.
Qed.

Lemma unregistered_kinds_are_rejected_witness :
  PRESS ∈ [PRESS; DRAG; WAIT; SCREENSHOT]
  ∧ create_action _action_classes 5 (bare PRESS 1)
    = Raise (ValueError "Unknown action type: ActionType.PRESS").
Proof.
  assert (PRESS ∈ [PRESS; DRAG; WAIT; SCREENSHOT]) as H by (by left).
  split; [exact H |].
  exact (proj1 (proj2 (proj2 (unregistered_kinds_are_rejected PRESS H)))
               5%Q (bare PRESS 1) eq_refl).
Defined.

(** C6.  For an action [a] the factory constructed, decoding [to_dict(a)]
    succeeds, whatever the clock reads, and gives an action of the same
    class whose payload is that of [a]: kind, timestamp, coordinates, text,
    scroll_info and metadata (and element_info and key_info) are the same.
    The id is derived anew from the clock. *)
Theorem from_dict_to_dict_round_trip reg (now : Q) (d : ActionData)
    (a : Action) (now_ts now_id : Q) :
  create_action reg now d = Ok a →
  ∃ a',
    create_from_dict reg now_ts now_id (Action_to_dict a) = Ok a'
    ∧ cls a' = cls a
    ∧ data a' = data a
    ∧ action_type (data a') = action_type (data a)
    ∧ timestamp (data a') = timestamp (data a)
    ∧ coordinates (data a') = coordinates (data a)
    ∧ text (data a') = text (data a)
    ∧ scroll_info (data a') = scroll_info (data a)
    ∧ metadata (data a') = metadata (data a)
    ∧ action_id a' = Action_id now_id (data a).
Proof.
  intros Ha. destruct (create_action_data _ _ _ _ Ha) as (Hd & Hc & _).
  rewrite create_from_dict_to_dict, Hd.
  exists {| cls := cls a; data := d; action_id := Action_id now_id d |}.
  split; [| done].
  unfold create_action in *. rewrite Hc in *. unfold Action_init in *.
  case_decide; done.
Qed.

Lemma from_dict_to_dict_round_trip_witness :
  ∃ a',
    create_from_dict _action_classes 3 4 (Action_to_dict scroll_a) = Ok a'
    ∧ data a' = data scroll_a.
Proof.
  destruct (from_dict_to_dict_round_trip _action_classes 7
              (scroll_data 0 (Some (100, 100)%Z) 1 2) scroll_a 3 4 eq_refl)
    as (a' & H1 & _ & H2 & _).
  exists a'. split; assumption.
Defined.

(** ** Identifiers *)

Lemma append_inj_r (s t1 t2 : string) : s +:+ t1 = s +:+ t2 → t1 = t2.
Proof.
  induction s as [| c s IH]; intros H; [exact H |].
  change (String c (s +:+ t1) = String c (s +:+ t2)) in H.
  injection H as H. by apply IH.
Qed.

Lemma fmt_id_inj (name : string) (n1 n2 : Z) :
  fmt_id name n1 = fmt_id name n2 ↔ n1 = n2.
Proof.
  split; [| by intros ->].
  unfold fmt_id. intros H.
  do 2 apply append_inj_r in H. by apply (inj pretty) in H.
Qed.

(** C5, the claim as worded, fails: the factory, given one and the same
    MOVE payload (same kind, same timestamp field) at clock readings of 1 s
    and 2 s, returns actions with different ids; an event built twice from
    the same fields at these two readings gets different ids as well. *)
Lemma same_kind_and_timestamp_different_ids :
  create_action _action_classes 1 (bare MOVE 5)
  = Ok (made MoveAction 1 (bare MOVE 5))
  ∧ create_action _action_classes 2 (bare MOVE 5)
    = Ok (made MoveAction 2 (bare MOVE 5))
  ∧ action_id (made MoveAction 1 (bare MOVE 5)) = "MOVE_1000000"
  ∧ action_id (made MoveAction 2 (bare MOVE 5)) = "MOVE_2000000"
  ∧ action_id (made MoveAction 1 (bare MOVE 5))
    ≠ action_id (made MoveAction 2 (bare MOVE 5))
  ∧ Events.event_id
      (Events.Event_init 1 Events.KEY_PRESSED 5 "kbd" (Events.Payload ∅) None)
    ≠ Events.event_id
        (Events.Event_init 2 Events.KEY_PRESSED 5 "kbd" (Events.Payload ∅) None).
Proof. vm_compute. repeat split; (reflexivity || discriminate). Qed.

(** C5, amended.  The id of an action is a function of its kind and of the
    clock reading taken when the object is constructed, counted in whole
    microseconds; the timestamp field takes no part.  Two actions of one
    class, whatever their payloads, have the same id exactly when the two
    clock readings fall into the same microsecond.  The same holds for the
    id of an event constructed without one. *)
Theorem id_is_kind_and_construction_time (c : ActionClass) (now1 now2 : Q)
    (d1 d2 : ActionData) (a1 a2 : Action) :
  Action_init c now1 d1 = Ok a1 →
  Action_init c now2 d2 = Ok a2 →
  action_id a1
  = fmt_id (ActionType_name (class_kind c)) (microseconds now1)
  ∧ (action_id a1 = action_id a2 ↔ microseconds now1 = microseconds now2)
  ∧ ∀ ty ts1 ts2 src1 src2 p1 p2,
      Events.event_id (Events.Event_init now1 ty ts1 src1 p1 None)
      = Events.event_id (Events.Event_init now2 ty ts2 src2 p2 None)
      ↔ microseconds now1 = microseconds now2.
Proof.
  unfold Action_init. intros H1 H2.
  case_decide as E1; [done |]. case_decide as E2; [done |].
  try apply dec_stable in E1. try apply dec_stable in E2.
  injection H1 as <-. injection H2 as <-. cbn. unfold Action_id.
  rewrite E1, E2. split; [done |]. split; [apply fmt_id_inj |].
  intros. cbn. apply fmt_id_inj.
Qed.

Lemma id_is_kind_and_construction_time_witness :
  action_id (made MoveAction 1 (bare MOVE 5))
  = action_id (made MoveAction (1000000001 # 1000000000) (bare MOVE 9))
  ↔ microseconds 1 = microseconds (1000000001 # 1000000000).
Proof.
  exact (proj1 (proj2 (id_is_kind_and_construction_time MoveAction
           1 (1000000001 # 1000000000) (bare MOVE 5) (bare MOVE 9)
           (made MoveAction 1 (bare MOVE 5))
           (made MoveAction (1000000001 # 1000000000) (bare MOVE 9))
           eq_refl eq_refl))).
Defined.

(** ** SCROLL *)

Lemma zero_scroll_lookup (key : string) :
  default 0%Z (({[ "dx" := 0%Z; "dy" := 0%Z ]} : gmap string Z) !! key) = 0%Z.
Proof.
  destruct (decide (key = "dx")) as [-> | Hx]; [done |].
  destruct (decide (key = "dy")) as [-> | Hy]; [done |].
  by rewrite lookup_insert_ne, lookup_singleton_ne by done.
Qed.

Lemma scroll_get_delta (a : Action) (key : string) :
  scroll_get (scroll_info (data a)) key = MergeTable.delta a key.
Proof.
  unfold scroll_get, MergeTable.delta, dict_or, dict_truthy.
  destruct (scroll_info (data a)) as [m |]; [| apply zero_scroll_lookup].
  case_bool_decide as Hm; cbn; [| done].
  apply dom_empty_iff_L in Hm. subst m.
  rewrite lookup_empty. apply zero_scroll_lookup.
Qed.

Lemma can_merge_with_scroll (a b : Action) :
  cls a = ScrollAction → cls b = ScrollAction →
  can_merge_with a b = true
  ↔ MergeTable.scroll_mergeable (λ dt, dt <= 1 # 2)%Q a b.
Proof.
  intros Ha Hb. unfold can_merge_with, MergeTable.scroll_mergeable,
    MergeTable.within_50, time_diff.
  rewrite Ha, Hb. rewrite bool_decide_eq_true_2 by done. cbn.
  case_bool_decide as Ht.
  - split; [done |]. intros [Hle _]. by apply Qle_not_lt in Hle.
  - apply Qnot_lt_le in Ht.
    destruct (coordinates (data a)) as [p1 |], (coordinates (data b)) as [p2 |];
      try (split; [intros _; split; [done | auto] | done]).
    unfold distance_lt_50. rewrite Z.ltb_lt. split.
    + intros H. split; [done |]. right. right. by exists p1, p2.
    + intros [_ [? | [? | (q1 & q2 & [= <-] & [= <-] & H)]]]; done.
Qed.

(** C3, the claim as worded, fails at the boundary: two SCROLL actions
    half a second apart, 11.2 pixels apart, can be merged, although their
    time difference is not below 0.5. *)
Lemma scroll_merges_at_half_a_second :
  timestamp (data scroll_a) = 0%Q
  ∧ timestamp (data scroll_b) = (1 # 2)%Q
  ∧ can_merge_with scroll_a scroll_b = true
  ∧ ¬ MergeTable.scroll_mergeable (λ dt, dt < 1 # 2)%Q scroll_a scroll_b.
Proof.
  split; [reflexivity |]. split; [reflexivity |]. split; [by vm_compute |].
  intros [Hlt _]. vm_compute in Hlt. discriminate.
Qed.

(** C3, amended.  Two SCROLL actions can be merged exactly when their
    timestamps differ by at most 0.5 s (0.5 included) and one of them has
    no coordinates or their coordinates are less than 50 apart.  The merge
    then returns a SCROLL action whose deltas are the sums [dx1 + dx2] and
    [dy1 + dy2], a missing delta counting as 0, and whose timestamp and
    coordinates are those of the later action, of the receiver when the
    timestamps are equal. *)
Theorem scroll_merge_rule (now : Q) (a b : Action) :
  cls a = ScrollAction → cls b = ScrollAction →
  (can_merge_with a b = true
   ↔ MergeTable.scroll_mergeable (λ dt, dt <= 1 # 2)%Q a b)
  ∧ (can_merge_with a b = true →
     ∃ r,
       merge_with now a b = Ok r
       ∧ cls r = ScrollAction
       ∧ action_type (data r) = SCROLL
       ∧ scroll_info (data r)
         = Some {[ "dx" := (MergeTable.delta a "dx"
                            + MergeTable.delta b "dx")%Z;
                   "dy" := (MergeTable.delta a "dy"
                            + MergeTable.delta b "dy")%Z ]}
       ∧ ((timestamp (data a) < timestamp (data b))%Q →
          timestamp (data r) = timestamp (data b)
          ∧ coordinates (data r) = coordinates (data b))
       ∧ ((timestamp (data b) <= timestamp (data a))%Q →
          timestamp (data r) = timestamp (data a)
          ∧ coordinates (data r) = coordinates (data a))).
Proof.
  intros Ha Hb. split; [by apply can_merge_with_scroll |].
  intros Hm. unfold merge_with. rewrite Ha, Hm. cbn.
  eexists. split; [reflexivity |]. cbn.
  rewrite !scroll_get_delta. repeat split.
  - by rewrite bool_decide_eq_true_2.
  - by rewrite bool_decide_eq_true_2.
  - rewrite bool_decide_eq_false_2; [done |]. by apply Qle_not_lt.
  - rewrite bool_decide_eq_false_2; [done |]. by apply Qle_not_lt.
Qed.

Example scroll_merge_of_the_specification :
  merge_with 9 scroll_c scroll_d
  = Ok (made ScrollAction 9 (scroll_data (3 # 10) (Some (110, 105)%Z) 4 1)).
Proof. by vm_compute. Qed.

Lemma scroll_merge_rule_witness :
  can_merge_with scroll_a scroll_b = true
  ↔ MergeTable.scroll_mergeable (λ dt, dt <= 1 # 2)%Q scroll_a scroll_b.
Proof.
  exact (proj1 (scroll_merge_rule 9 scroll_a scroll_b eq_refl eq_refl)).
Defined.

(** ** TYPE *)

Lemma dict_truthy_present (d : option pydict) :
  dict_truthy d = true ↔ MergeTable.present d.
Proof.
  unfold dict_truthy, MergeTable.present. destruct d as [m |].
  - rewrite negb_true_iff, bool_decide_eq_false, dom_empty_iff_L.
    split; [intros H; by exists m | by intros (? & [= <-] & H)].
  - split; [done | by intros (? & ? & _)].
Qed.

Lemma can_merge_with_type (a b : Action) :
  cls a = TypeAction → cls b = TypeAction →
  can_merge_with a b = bool_decide (time_diff a b < 1)%Q.
Proof.
  intros Ha Hb. unfold can_merge_with. rewrite Ha, Hb.
  by rewrite bool_decide_eq_true_2.
Qed.

Lemma time_diff_sym (a b : Action) : time_diff a b = time_diff b a.
Proof. apply Qabs_Qminus. Qed.

(** C4, the claim as worded, fails on equal timestamps: each call puts the
    text of its argument first, so the two call orders give different
    texts. *)
Lemma type_merge_order_matters_on_equal_timestamps :
  (time_diff type_x type_y < 1)%Q
  ∧ merge_with 9 type_x type_y = Ok (made TypeAction 9 (type_data 1 "yx"))
  ∧ merge_with 9 type_y type_x = Ok (made TypeAction 9 (type_data 1 "xy"))
  ∧ merge_with 9 type_x type_y ≠ merge_with 9 type_y type_x.
Proof. by vm_compute. Qed.

(** C4, amended.  For two TYPE actions whose timestamps differ, by less
    than 1.0 s, merging in either call order gives the same payload: the
    text is the earlier text followed by the later text (a missing text
    counting as empty), the timestamp is the later one, the element_info
    is the later action's when that is present (neither [None] nor empty)
    and the earlier action's otherwise, and the metadata holds every key of
    both maps with the later action's value on a key both have.  The ids of
    the two results are derived from the clock at each call. *)
Theorem type_merge_symmetric (now1 now2 : Q) (a b : Action) :
  cls a = TypeAction → cls b = TypeAction →
  (time_diff a b < 1)%Q →
  (timestamp (data a) < timestamp (data b))%Q →
  ∃ d,
    merge_with now1 a b
    = Ok {| cls := TypeAction; data := d; action_id := Action_id now1 d |}
    ∧ merge_with now2 b a
      = Ok {| cls := TypeAction; data := d; action_id := Action_id now2 d |}
    ∧ action_type d = TYPE
    ∧ text d = Some (text_or_empty (text (data a))
                     +:+ text_or_empty (text (data b)))
    ∧ timestamp d = timestamp (data b)
    ∧ (MergeTable.present (element_info (data b)) →
       element_info d = element_info (data b))
    ∧ (¬ MergeTable.present (element_info (data b)) →
       element_info d = element_info (data a))
    ∧ ∀ k,
        metadata d !! k
        = match metadata (data b) !! k with
          | Some v => Some v
          | None => metadata (data a) !! k
          end.
Proof.
  intros Ha Hb Hdt Hlt.
  assert (can_merge_with a b = true) as Hab.
  { rewrite can_merge_with_type by done. by apply bool_decide_eq_true_2. }
  assert (can_merge_with b a = true) as Hba.
  { rewrite can_merge_with_type, <- time_diff_sym by done.
    by apply bool_decide_eq_true_2. }
  assert (¬ (timestamp (data b) < timestamp (data a))%Q) as Hnlt.
  { apply Qle_not_lt. by apply Qlt_le_weak. }
  unfold merge_with. rewrite Ha, Hb, Hab, Hba. cbn.
  rewrite (bool_decide_eq_true_2 _ Hlt), (bool_decide_eq_false_2 _ Hnlt).
  eexists. split; [reflexivity |]. split; [reflexivity |]. cbn.
  repeat split.
  - intros Hp. unfold dict_or.
    by rewrite (proj2 (dict_truthy_present _) Hp).
  - intros Hp. unfold dict_or.
    destruct (dict_truthy (element_info (data b))) eqn:E; [| done].
    by apply dict_truthy_present in E.
  - intros k. unfold dict_merge. rewrite lookup_union.
    by destruct (metadata (data b) !! k), (metadata (data a) !! k).
Qed.

Lemma type_merge_symmetric_witness :
  ∃ d,
    merge_with 9 type_hello type_world = Ok (made TypeAction 9 d)
    ∧ merge_with 10 type_world type_hello = Ok (made TypeAction 10 d)
    ∧ text d = Some "Hello World".
Proof.
  assert (time_diff type_hello type_world < 1)%Q as Hdt by (by vm_compute).
  assert (timestamp (data type_hello) < timestamp (data type_world))%Q
    as Hlt by (by vm_compute).
  destruct (type_merge_symmetric 9 10 type_hello type_world
              eq_refl eq_refl Hdt Hlt) as (d & H1 & H2 & _ & H3 & _).
  exists d. repeat split; assumption.
Defined.

End ActionFacts.

(** * Facts about the recording session *)
Module SessionFacts.
Import Session Samples.

Lemma set_state_state now s new_state :
  state (set_state now s new_state).1 = new_state.
Proof. done. Qed.

Lemma set_state_custom_data now s new_state :
  custom_data (metadata (set_state now s new_state).1)
  = custom_data (metadata s).
Proof. unfold set_state. cbn. by repeat case_decide. Qed.

(** C7.  From every state and for every message, [error] leaves the
    session in ERROR with the message stored under ["error_message"] in the
    custom data of its metadata, with the new state appended to the state
    history and every observer told.  The call makes no use of
    [can_transition_to], which allows ERROR from PREPARING and STOPPING
    only. *)
Theorem error_always_transitions (s : RecordingSession) (m : string)
    (now : Q) :
  let s' := (error m now s).1 in
  state s' = ERROR
  ∧ custom_data (metadata s') !! "error_message" = Some (PyStr m)
  ∧ _state_history s' = _state_history s ++ [(ERROR, now)]
  ∧ (error m now s).2 = map (λ o, (o, state s, ERROR)) (_observers s)
  ∧ can_transition_to s ERROR
    = bool_decide (state s ∈ [PREPARING; STOPPING]).
Proof.
  cbn zeta. unfold error. rewrite set_state_state, set_state_custom_data.
  cbn. rewrite lookup_insert_eq. repeat split.
  unfold can_transition_to. by destruct (state s).
Qed.

Example error_from_idle :
  state (error "x" 3 fresh_session).1 = ERROR
  ∧ custom_data (metadata (error "x" 3 fresh_session).1) !! "error_message"
    = Some (PyStr "x")
  ∧ can_transition_to fresh_session ERROR = false.
Proof. by vm_compute. Qed.

(** A call whose target the table does not allow changes nothing. *)
Lemma guarded_rejected tgt now s :
  can_transition_to s tgt = false → guarded tgt now s = (false, s, []).
Proof. intros H. unfold guarded. by rewrite H. Qed.

(** C8.  For each of [prepare], [start], [pause], [resume], [stop],
    [complete] and [reset]: when the table does not allow the target state
    from the current one, the call returns [False], the session is what it
    was (state, metadata, state history, event count and the rest), and no
    observer is called.  In particular [start] on an IDLE session returns
    [False] and the session stays IDLE. *)
Theorem rejected_transition_changes_nothing (c : transition_call) (now : Q)
    (s : RecordingSession) :
  can_transition_to s (target c) = false →
  run c now s = (false, s, [])
  ∧ state (run c now s).1.2 = state s
  ∧ metadata (run c now s).1.2 = metadata s
  ∧ _state_history (run c now s).1.2 = _state_history s
  ∧ _event_count (run c now s).1.2 = _event_count s
  ∧ (state s = IDLE → start now s = (false, s, [])).
Proof.
  intros H.
  assert (run c now s = (false, s, [])) as ->.
  { destruct c; cbn in *; try by apply guarded_rejected.
    - unfold prepare. by rewrite H.
    - unfold reset. by rewrite H. }
  repeat split.
  intros Hidle. apply guarded_rejected.
  unfold can_transition_to. by rewrite Hidle.
Qed.

Lemma rejected_transition_changes_nothing_witness :
  can_transition_to fresh_session (target Start) = false
  ∧ start 3 fresh_session = (false, fresh_session, [])
  ∧ state fresh_session = IDLE.
Proof.
  assert (can_transition_to fresh_session (target Start) = false) as H
    by reflexivity.
  split; [exact H |]. split; [| reflexivity].
  exact (proj1 (rejected_transition_changes_nothing Start 3 fresh_session H)).
Defined.

End SessionFacts.

(** * More facts about the event bus *)
Module EventBusLaws.
Import Events BusRuns PublishRuns Samples.

(** ** Dispatch under handler faults *)

Lemma error_loop_events (ev : Event) (hs : list EventHandler) :
  Forall (λ c : call, c.2 = ev) (error_loop ev hs).
Proof.
  induction hs as [| h hs IH]; cbn; [constructor |].
  destruct (can_handle h ERROR_OCCURRED); [| done].
  constructor; [done |]. destruct (handle_event h ev); [constructor | done].
Qed.

Lemma error_loop_filtered (ev : Event) (hs : list EventHandler) :
  event_type ev = ERROR_OCCURRED →
  filter (λ c : call, event_type c.2 ≠ ERROR_OCCURRED) (error_loop ev hs) = [].
Proof.
  intros Hev. induction (error_loop_events ev hs) as [| c cs Hc _ IH]; [done |].
  rewrite filter_cons_False; [done |]. by rewrite Hc, Hev; intros H.
Qed.

Lemma handler_loop_own_calls reg clock (e : Event) (hs : list EventHandler) n :
  event_type e ≠ ERROR_OCCURRED →
  filter (λ c : call, event_type c.2 ≠ ERROR_OCCURRED)
         (handler_loop reg clock e hs n)
  = map (λ h, (handler_id h, e)) (accepting e hs).
Proof.
  intros Hty. unfold accepting. revert n.
  induction hs as [| h hs IH]; intros n; [done |].
  cbn [handler_loop]. rewrite (filter_cons _ h hs).
  destruct (can_handle h (event_type e)) eqn:Hc.
  - rewrite decide_True by done. cbn [map].
    rewrite filter_cons, decide_True by done. f_equal.
    destruct (handle_event h e) as [msg |]; [| apply IH].
    rewrite filter_app, IH. unfold _publish_error_event.
    case_decide; [| done].
    by rewrite error_loop_filtered.
  - rewrite decide_False by done. apply IH.
Qed.

(** X1.  A handler that raises does not keep the later handlers from
    being called: when an event of a type other than ERROR_OCCURRED is
    published, the calls that carry an event of another type than
    ERROR_OCCURRED are one call with the published event for each entry of
    the dispatch list that accepts the type, in list order, whichever
    handlers raise. *)
Theorem publish_isolates_handler_faults (clock : nat → Q) (b : EventBus)
    (e : Event) :
  event_type e ≠ ERROR_OCCURRED →
  filter (λ c : call, event_type c.2 ≠ ERROR_OCCURRED) (publish clock b e).2
  = map (λ h, (handler_id h, e)) (accepting e (dispatch_list b e)).
Proof.
  intros Hty. unfold publish. cbn [snd].
  by rewrite handler_loop_own_calls.
Qed.

Lemma publish_isolates_handler_faults_witness :
  MOUSE_MOVED ≠ ERROR_OCCURRED
  ∧ filter (λ c : call, event_type c.2 ≠ ERROR_OCCURRED)
      (publish still
         (subscribe (subscribe one_each MOUSE_MOVED (faulty 3))
                    ERROR_OCCURRED (quiet 4))
         move1).2
    = [(1, move1); (3, move1); (2, move1)].
Proof.
  assert (event_type move1 ≠ ERROR_OCCURRED) as H by done.
  split; [exact H |].
  exact (publish_isolates_handler_faults still
           (subscribe (subscribe one_each MOUSE_MOVED (faulty 3))
                      ERROR_OCCURRED (quiet 4))
           move1 H).
Defined.

Lemma handler_loop_error_type reg clock (e : Event) (hs : list EventHandler) n :
  event_type e = ERROR_OCCURRED →
  handler_loop reg clock e hs n = map (λ h, (handler_id h, e)) (accepting e hs).
Proof.
  intros Hty. unfold accepting. revert n.
  induction hs as [| h hs IH]; intros n; [done |].
  cbn [handler_loop]. rewrite (filter_cons _ h hs).
  destruct (can_handle h (event_type e)) eqn:Hc.
  - rewrite decide_True by done. cbn [map]. f_equal.
    destruct (handle_event h e) as [msg |]; [| apply IH].
    rewrite decide_False by (intros H; by apply H). apply IH.
  - rewrite decide_False by done. apply IH.
Qed.

(** X2.  Publishing an ERROR_OCCURRED event never produces a further error
    event: every call of that publish carries the published event itself,
    one call per accepting entry of the dispatch list, even when handlers
    raise. *)
Theorem publish_error_event_is_not_recursive (clock : nat → Q) (b : EventBus)
    (e : Event) :
  event_type e = ERROR_OCCURRED →
  (publish clock b e).2
  = map (λ h, (handler_id h, e)) (accepting e (dispatch_list b e)).
Proof.
  intros Hty. unfold publish. cbn [snd]. by apply handler_loop_error_type.
Qed.

Lemma publish_error_event_is_not_recursive_witness :
  event_type (event_at ERROR_OCCURRED 1 "e1") = ERROR_OCCURRED
  ∧ (publish still
       (subscribe (subscribe_global EventBus_init (faulty 3))
                  ERROR_OCCURRED (quiet 4))
       (event_at ERROR_OCCURRED 1 "e1")).2
    = [(4, event_at ERROR_OCCURRED 1 "e1");
       (3, event_at ERROR_OCCURRED 1 "e1")].
Proof.
  split; [reflexivity |].
  exact (publish_error_event_is_not_recursive still
           (subscribe (subscribe_global EventBus_init (faulty 3))
                      ERROR_OCCURRED (quiet 4))
           (event_at ERROR_OCCURRED 1 "e1") eq_refl).
Defined.

Lemma error_loop_first_fault (ev : Event) (before after : list EventHandler)
    (h : EventHandler) (msg : string) :
  can_handle h ERROR_OCCURRED = true →
  handle_event h ev = Some msg →
  Forall (λ k, handle_event k ev = None) before →
  error_loop ev (before ++ h :: after)
  = map (λ k, (handler_id k, ev))
        (filter (λ k, can_handle k ERROR_OCCURRED = true) before)
    ++ [(handler_id h, ev)].
Proof.
  intros Hc Hh Hq. induction Hq as [| k ks Hk _ IH]; cbn [app error_loop].
  - by rewrite Hc, Hh.
  - rewrite filter_cons. destruct (can_handle k ERROR_OCCURRED) eqn:Hck.
    + rewrite decide_True by done. cbn [map app]. by rewrite Hk, IH.
    + rewrite decide_False by done. apply IH.
Qed.

(** X3.  The error event of a failing handler goes to the handlers stored
    for ERROR_OCCURRED only, in order, and the first of them that raises
    ends the delivery: the handlers after it are not called. *)
Theorem error_delivery_stops_at_first_fault
    (reg : gmap EventType (list EventHandler)) (ev : Event)
    (before after : list EventHandler) (h : EventHandler) (msg : string) :
  reg !! ERROR_OCCURRED = Some (before ++ h :: after) →
  can_handle h ERROR_OCCURRED = true →
  handle_event h ev = Some msg →
  Forall (λ k, handle_event k ev = None) before →
  _publish_error_event reg ev
  = map (λ k, (handler_id k, ev))
        (filter (λ k, can_handle k ERROR_OCCURRED = true) before)
    ++ [(handler_id h, ev)].
Proof.
  intros Hreg Hc Hh Hq. unfold _publish_error_event. rewrite Hreg.
  by apply error_loop_first_fault with msg.
Qed.

Lemma error_delivery_stops_at_first_fault_witness :
  _publish_error_event
    {[ ERROR_OCCURRED := [quiet 1; faulty 2; quiet 3] ]} move1
  = [(1, move1); (2, move1)].
Proof.
  exact (error_delivery_stops_at_first_fault
           {[ ERROR_OCCURRED := [quiet 1; faulty 2; quiet 3] ]} move1
           [quiet 1] [quiet 3] (faulty 2) "boom" eq_refl eq_refl eq_refl
           ltac:(by repeat constructor)).
Defined.

(** ** The registry *)

Lemma publish_other_types (clock : nat → Q) (b : EventBus) (e : Event)
    (t : EventType) :
  t ≠ event_type e → _handlers (publish clock b e).1 !! t = _handlers b !! t.
Proof.
  intros Ht. unfold publish. cbn [fst _handlers].
  destruct (_handlers b !! event_type e); [| done].
  by rewrite lookup_insert_ne.
Qed.

Lemma publish_stored_list (clock : nat → Q) (b : EventBus) (e : Event)
    (l : list EventHandler) :
  _handlers b !! event_type e = Some l →
  _handlers (publish clock b e).1 !! event_type e
  = Some (l ++ _global_handlers b).
Proof.
  intros Hl. unfold publish. cbn [fst _handlers]. rewrite Hl.
  cbn [default]. by rewrite lookup_insert_eq.
Qed.

Lemma publish_each_global_handlers clock (b : EventBus) (es : list Event) :
  _global_handlers (publish_each clock b es) = _global_handlers b.
Proof.
  unfold publish_each. revert b.
  induction es as [| e es IH]; intros b; [done |].
  cbn [foldl]. by rewrite IH.
Qed.

Lemma length_copies {A} (k : nat) (g : list A) :
  length (mjoin (replicate k g)) = k * length g.
Proof.
  induction k as [| k IH]; [done |].
  change (mjoin (replicate (S k) g)) with (g ++ mjoin (replicate k g)).
  rewrite length_app, IH. lia.
Qed.

(** X4.  Every publish of an event whose type has a stored handler list
    appends the global handlers to that list: after the events [es], all of
    type [t], the list stored for [t] is the subscribed handlers followed by
    one copy of the global handlers per publish, and [get_handler_count(t)]
    has grown by the number of global handlers times the number of
    publishes.  The lists of the other types and the global list stay as
    they were. *)
Theorem publishes_pile_up_global_handlers (clock : nat → Q) (b : EventBus)
    (t : EventType) (l : list EventHandler) (es : list Event) :
  _handlers b !! t = Some l →
  Forall (λ e, event_type e = t) es →
  let b' := publish_each clock b es in
  _handlers b' !! t
  = Some (l ++ mjoin (replicate (length es) (_global_handlers b)))
  ∧ get_handler_count b' (Some t)
    = length l + length es * length (_global_handlers b)
  ∧ _global_handlers b' = _global_handlers b
  ∧ ∀ t', t' ≠ t → _handlers b' !! t' = _handlers b !! t'.
Proof.
  intros Hl Hes b'.
  assert (_handlers b' !! t
          = Some (l ++ mjoin (replicate (length es) (_global_handlers b)))
          ∧ ∀ t', t' ≠ t → _handlers b' !! t' = _handlers b !! t')
    as [H1 H2].
  { subst b'. unfold publish_each. revert b l Hl.
    induction Hes as [| e es He _ IH]; intros b l Hl.
    - cbn. by rewrite app_nil_r.
    - cbn [foldl]. subst t. destruct (IH _ _ (publish_stored_list clock b e l Hl)) as [H1 H2].
      split.
      + rewrite H1. cbn. by rewrite <- (assoc_L (++)).
      + intros t' Ht'. rewrite H2 by done. by apply publish_other_types. }
  split; [done |]. split.
  - unfold get_handler_count. rewrite H1. cbn.
    by rewrite length_app, length_copies.
  - split; [apply publish_each_global_handlers | done].
Qed.

Lemma publishes_pile_up_global_handlers_witness :
  (map handler_id
     <$> _handlers (publish_each still one_each [move1; move2; move1])
         !! MOUSE_MOVED)
  = Some [1; 2; 2; 2].
Proof.
  assert (Forall (λ e, event_type e = MOUSE_MOVED) [move1; move2; move1])
    as H by (by repeat constructor).
  rewrite (proj1 (publishes_pile_up_global_handlers still one_each
                    MOUSE_MOVED [quiet 1] [move1; move2; move1] eq_refl H)).
  reflexivity.
Defined.

(** ** Unsubscribing *)

Lemma list_remove_absent (h : EventHandler) (l : list EventHandler) :
  Forall (λ x, handler_id x ≠ handler_id h) l → list_remove h l = l.
Proof.
  induction 1 as [| x l Hx _ IH]; cbn; [done |].
  rewrite decide_False by done. by rewrite IH.
Qed.

Lemma list_remove_first (h x : EventHandler) (l1 l2 : list EventHandler) :
  handler_id x = handler_id h →
  Forall (λ y, handler_id y ≠ handler_id h) l1 →
  list_remove h (l1 ++ x :: l2) = l1 ++ l2.
Proof.
  intros Hx. induction 1 as [| y l1 Hy _ IH]; cbn.
  - by rewrite decide_True.
  - rewrite decide_False by done. by rewrite IH.
Qed.

(** X5.  Unsubscribing a handler that is not in the list stored for the
    type, or from a type nothing was ever subscribed to, changes nothing:
    the bus is the same afterwards, and no entry is created for the type. *)
Theorem unsubscribe_absent_is_noop (b : EventBus) (t : EventType)
    (h : EventHandler) :
  Forall (λ x, handler_id x ≠ handler_id h) (default [] (_handlers b !! t)) →
  unsubscribe b t h = b.
Proof.
  intros Hab. unfold unsubscribe.
  destruct (_handlers b !! t) as [l |] eqn:E; [| done].
  rewrite list_remove_absent by done. rewrite insert_id by done.
  by destruct b.
Qed.

Lemma unsubscribe_absent_is_noop_witness :
  unsubscribe one_each KEY_PRESSED (quiet 1) = one_each
  ∧ unsubscribe one_each MOUSE_MOVED (quiet 2) = one_each.
Proof.
  split.
  - exact (unsubscribe_absent_is_noop one_each KEY_PRESSED (quiet 1)
             ltac:(by repeat constructor)).
  - exact (unsubscribe_absent_is_noop one_each MOUSE_MOVED (quiet 2)
             ltac:(by repeat constructor)).
Defined.

(** X6.  A handler subscribed several times to a type loses one
    registration per [unsubscribe], the earliest one: the entries before
    and after it keep their order, later registrations of the same handler
    stay, and the other types and the global list are untouched. *)
Theorem unsubscribe_removes_first_registration (b : EventBus)
    (t : EventType) (h x : EventHandler) (l1 l2 : list EventHandler) :
  _handlers b !! t = Some (l1 ++ x :: l2) →
  handler_id x = handler_id h →
  Forall (λ y, handler_id y ≠ handler_id h) l1 →
  _handlers (unsubscribe b t h) !! t = Some (l1 ++ l2)
  ∧ (∀ t', t' ≠ t → _handlers (unsubscribe b t h) !! t' = _handlers b !! t')
  ∧ _global_handlers (unsubscribe b t h) = _global_handlers b
  ∧ _event_history (unsubscribe b t h) = _event_history b.
Proof.
  intros Hl Hx Hl1. unfold unsubscribe. rewrite Hl. cbn.
  rewrite list_remove_first by done. rewrite lookup_insert_eq.
  repeat split. intros t' Ht'. by rewrite lookup_insert_ne.
Qed.

Lemma unsubscribe_removes_first_registration_witness :
  (map handler_id
     <$> _handlers
           (unsubscribe
              (subscribe (subscribe one_each MOUSE_MOVED (quiet 5))
                         MOUSE_MOVED (quiet 1))
              MOUSE_MOVED (quiet 1))
         !! MOUSE_MOVED)
  = Some [5; 1].
Proof.
  rewrite (proj1 (unsubscribe_removes_first_registration
                    (subscribe (subscribe one_each MOUSE_MOVED (quiet 5))
                               MOUSE_MOVED (quiet 1))
                    MOUSE_MOVED (quiet 1) (quiet 1) [] [quiet 5; quiet 1]
                    eq_refl eq_refl ltac:(by constructor))).
  reflexivity.
Defined.

(** ** Counting and subscribing *)

Lemma total_insert (m : gmap EventType (list EventHandler)) (t : EventType)
    (l : list EventHandler) :
  map_fold (λ _ hs total, length hs + total) 0 (<[t := l]> m)
  + length (default [] (m !! t))
  = map_fold (λ _ hs total, length hs + total) 0 m + length l.
Proof.
  assert (∀ (j1 j2 : EventType) (z1 z2 : list EventHandler) (y : nat),
            length z1 + (length z2 + y) = length z2 + (length z1 + y))
    as Hcomm by (intros; lia).
  rewrite <- insert_delete_eq.
  rewrite map_fold_insert_L; [| by intros; apply Hcomm | by apply lookup_delete_eq].
  destruct (m !! t) as [old |] eqn:E; cbn.
  - rewrite (map_fold_delete_L _ _ t old m); [lia | by intros; apply Hcomm | done].
  - rewrite delete_id by done. lia.
Qed.

(** X7.  [subscribe] adds one to the handler count of its type and to the
    total and leaves the counts of the other types; [subscribe_global] adds
    one to the total and leaves every per-type count.  Nothing is
    deduplicated: subscribing the same handler again counts again. *)
Theorem subscribing_counts_each_registration (b : EventBus) (t : EventType)
    (h : EventHandler) :
  get_handler_count (subscribe b t h) (Some t)
  = S (get_handler_count b (Some t))
  ∧ get_handler_count (subscribe b t h) None = S (get_handler_count b None)
  ∧ get_handler_count (subscribe (subscribe b t h) t h) (Some t)
    = S (S (get_handler_count b (Some t)))
  ∧ get_handler_count (subscribe_global b h) None
    = S (get_handler_count b None)
  ∧ ∀ t', get_handler_count (subscribe_global b h) (Some t')
          = get_handler_count b (Some t').
Proof.
  assert (∀ b', get_handler_count (subscribe b' t h) (Some t)
                = S (get_handler_count b' (Some t))) as Hone.
  { intros b'. unfold get_handler_count, subscribe. cbn.
    rewrite lookup_insert_eq. cbn. rewrite length_app. cbn. lia. }
  split; [apply Hone |]. split.
  - unfold get_handler_count, subscribe. cbn.
    pose proof (total_insert (_handlers b) t
                  (default [] (_handlers b !! t) ++ [h])) as H.
    rewrite length_app in H. cbn in H. lia.
  - split; [by rewrite !Hone |]. split; [| done].
    unfold get_handler_count, subscribe_global. cbn.
    rewrite length_app. cbn. lia.
Qed.

Lemma subscribe_each_lookup (h : EventHandler) (ets : list EventType)
    (b : EventBus) (t : EventType) :
  default [] (_handlers (foldl (λ b' et, subscribe b' et h) b ets) !! t)
  = default [] (_handlers b !! t)
    ++ replicate (length (filter (λ x, x = t) ets)) h.
Proof.
  revert b. induction ets as [| a ets IH]; intros b.
  - cbn. by rewrite app_nil_r.
  - cbn [foldl]. rewrite IH, filter_cons. unfold subscribe. cbn [_handlers].
    destruct (decide (a = t)) as [-> | Hne].
    + rewrite lookup_insert_eq. cbn. by rewrite <- (assoc_L (++)).
    + by rewrite lookup_insert_ne.
Qed.

(** X8.  [subscribe_function] wraps the function in one handler object
    and registers that object once per entry of the list of types: for each
    type, the stored list grows by as many copies of the wrapper as the
    type occurs in the list (none for a type not listed, two for a type
    listed twice), placed after the handlers already there.  The wrapper
    accepts exactly the listed types. *)
Theorem subscribe_function_registers_per_entry (b : EventBus) (ident : nat)
    (ets : list EventType) (f : Event → option string) (t : EventType) :
  let wrapper := FunctionEventHandler ident f ets in
  default [] (_handlers (subscribe_function b ident ets f) !! t)
  = default [] (_handlers b !! t)
    ++ replicate (length (filter (λ x, x = t) ets)) wrapper
  ∧ (can_handle wrapper t = true ↔ t ∈ ets)
  ∧ get_handler_count (subscribe_function b ident ets f) (Some t)
    = get_handler_count b (Some t) + length (filter (λ x, x = t) ets).
Proof.
  intros wrapper. unfold subscribe_function. fold wrapper.
  split; [apply subscribe_each_lookup |]. split.
  - cbn. apply bool_decide_eq_true.
  - unfold get_handler_count.
    by rewrite subscribe_each_lookup, length_app, length_replicate.
Qed.

(** ** The newest history entry *)

(** On a bus whose capacity is at least one, the event just
    published is the last entry of the history, whatever the handlers did;
    [create_event] returns the event it published, stamped with the first
    clock reading and with the given type and source. *)
Lemma published_event_is_newest (clock : nat → Q) (b : EventBus)
    (e : Event) (ty : EventType) (src : string) (d : option pydict) :
  0 < _max_history b →
  last (_event_history (publish clock b e).1) = Some e
  ∧ last (_event_history (create_event clock b ty src d).1.1)
    = Some (create_event clock b ty src d).2
  ∧ event_type (create_event clock b ty src d).2 = ty
  ∧ source (create_event clock b ty src d).2 = src
  ∧ timestamp (create_event clock b ty src d).2 = clock 0.
Proof.
  intros Hcap.
  assert (∀ c x, last (_event_history (publish c b x).1) = Some x) as Hlast.
  { intros c x. unfold publish. cbn [fst _event_history].
    case_decide as Hlen; [| apply last_snoc].
    destruct (_event_history b) as [| y h]; cbn in *; [lia |].
    apply last_snoc. }
  split; [apply Hlast |]. split; [| done].
  unfold create_event. cbn [fst snd]. apply Hlast.
Qed.

Lemma published_event_is_newest_witness :
  0 < _max_history one_each
  ∧ last (_event_history (publish still one_each move1).1) = Some move1.
Proof.
  assert (0 < _max_history one_each) as H by (cbn; lia).
  split; [exact H |].
  exact (proj1 (published_event_is_newest still one_each move1
                  MOUSE_MOVED "src" None H)).
Defined.

End EventBusLaws.

(** * More facts about actions *)
Module ActionLaws.
Import Actions ActionShape Replay Samples.

Lemma time_diff_comm (a b : Action) : time_diff a b = time_diff b a.
Proof. apply Qabs_Qminus. Qed.

Lemma distance_lt_50_comm (p q : Z * Z) :
  distance_lt_50 p q = distance_lt_50 q p.
Proof.
  unfold distance_lt_50. f_equal.
  rewrite !Z.pow_2_r. ring.
Qed.

(** X9.  Whether two actions can be merged does not depend on which of
    them is asked: [a.can_merge_with(b)] and [b.can_merge_with(a)] agree for
    all actions of all classes. *)
Theorem can_merge_with_is_symmetric (a b : Action) :
  can_merge_with a b = can_merge_with b a.
Proof.
  unfold can_merge_with. rewrite (time_diff_comm b a).
  destruct (cls a) eqn:Ha, (cls b) eqn:Hb; try done.
  rewrite !(bool_decide_eq_true_2 (ScrollAction = ScrollAction)) by done.
  cbn [negb].
  destruct (bool_decide (1 # 2 < time_diff a b)%Q); [done |].
  destruct (coordinates (data a)), (coordinates (data b)); try done.
  apply distance_lt_50_comm.
Qed.

Lemma merge_needs_same_class (a b : Action) :
  can_merge_with a b = true →
  cls a = cls b ∧ cls a ≠ ClickAction.
Proof.
  unfold can_merge_with.
  destruct (cls a) eqn:Ha; [| done | |];
    (case_bool_decide as Hb; [| done]); by rewrite Hb.
Qed.

(** X10.  [merge_with] returns an action exactly when [can_merge_with]
    holds, and raises otherwise.  That takes two actions of one class other
    than ClickAction, whatever the times and places: different classes
    never merge and a click never merges.  The action returned is of the
    class of the receiver. *)
Theorem merge_succeeds_iff_mergeable (now : Q) (a b : Action) :
  ((∃ r, merge_with now a b = Ok r ∧ cls r = cls a)
   ↔ can_merge_with a b = true)
  ∧ (can_merge_with a b = true → cls a = cls b ∧ cls a ≠ ClickAction)
  ∧ (can_merge_with a b = false → ∃ msg, merge_with now a b = Raise (ValueError msg)).
Proof.
  split; [| split; [apply merge_needs_same_class |]].
  2: { intros Hm. unfold merge_with. rewrite Hm.
       destruct (cls a); by eexists. }
  split.
  - intros (r & Hr & _). unfold merge_with in Hr.
    destruct (cls a) eqn:Ha; [| done | |];
      by destruct (can_merge_with a b).
  - intros Hm. destruct (merge_needs_same_class a b Hm) as [Hc Hnc].
    unfold merge_with. rewrite Hm. cbn.
    destruct (cls a) eqn:Ha; [| done | |].
    + case_bool_decide; [exists b | exists a]; by rewrite <- ?Hc.
    + case_bool_decide; eexists; split; reflexivity.
    + case_bool_decide; eexists; split; reflexivity.
Qed.

Lemma can_merge_with_move (a b : Action) :
  cls a = MoveAction → cls b = MoveAction →
  can_merge_with a b = bool_decide (time_diff a b < 1 # 10)%Q.
Proof.
  intros Ha Hb. unfold can_merge_with. rewrite Ha, Hb.
  by rewrite bool_decide_eq_true_2.
Qed.

(** X11.  Two MOVE actions merge exactly when their timestamps are less
    than 0.1 s apart.  The merge builds nothing: it returns the later of
    the two action objects as it is, id and position included (the receiver
    when the timestamps are equal), so for different timestamps both call
    orders return the same object.  At 0.1 s or more it raises. *)
Theorem move_merge_returns_later_action (now1 now2 : Q) (a b : Action) :
  cls a = MoveAction → cls b = MoveAction →
  (timestamp (data a) <= timestamp (data b))%Q →
  (can_merge_with a b = true ↔ (time_diff a b < 1 # 10)%Q)
  ∧ merge_with now1 b a
    = (if bool_decide (time_diff a b < 1 # 10)%Q then Ok b
       else Raise (ValueError "Cannot merge these actions"))
  ∧ merge_with now2 a b
    = (if bool_decide (time_diff a b < 1 # 10)%Q
       then if bool_decide (timestamp (data a) < timestamp (data b))%Q
            then Ok b else Ok a
       else Raise (ValueError "Cannot merge these actions")).
Proof.
  intros Ha Hb Hle.
  split; [rewrite can_merge_with_move by done; apply bool_decide_eq_true |].
  unfold merge_with. rewrite Ha, Hb, !can_merge_with_move by done.
  rewrite (time_diff_comm b a).
  destruct (bool_decide (time_diff a b < 1 # 10)%Q); cbn; [| done].
  split; [| done].
  rewrite bool_decide_eq_false_2; [done |]. by apply Qle_not_lt.
Qed.

Lemma move_merge_returns_later_action_witness :
  merge_with 9 (made MoveAction 7 (bare MOVE (1 # 20)))
             (made MoveAction 8 (bare MOVE 0))
  = Ok (made MoveAction 7 (bare MOVE (1 # 20))).
Proof.
  assert (timestamp (data (made MoveAction 8 (bare MOVE 0)))
          <= timestamp (data (made MoveAction 7 (bare MOVE (1 # 20)))))%Q
    as H by (by vm_compute).
  exact (proj1 (proj2 (move_merge_returns_later_action 9 9
           (made MoveAction 8 (bare MOVE 0))
           (made MoveAction 7 (bare MOVE (1 # 20))) eq_refl eq_refl H))).
Defined.

(** X12.  Whatever the kind, a merged action carries the later of the two
    timestamps: its timestamp is that of one of the two actions and is not
    before either of them. *)
Theorem merged_timestamp_is_the_later (now : Q) (a b r : Action) :
  merge_with now a b = Ok r →
  (timestamp (data a) <= timestamp (data r))%Q
  ∧ (timestamp (data b) <= timestamp (data r))%Q
  ∧ (timestamp (data r) = timestamp (data a)
     ∨ timestamp (data r) = timestamp (data b)).
Proof.
  unfold merge_with.
  destruct (cls a); [| done | |];
    (destruct (can_merge_with a b); [| done]); cbn;
    case_bool_decide as Hlt; intros [= <-]; cbn;
    (split; [| split; [| by auto]]);
    auto using Qle_refl, Qlt_le_weak, Qnot_lt_le.
Qed.

Lemma merged_timestamp_is_the_later_witness :
  ∃ r, merge_with 9 scroll_c scroll_d = Ok r
       ∧ (timestamp (data scroll_c) <= timestamp (data r))%Q.
Proof.
  exists (made ScrollAction 9 (scroll_data (3 # 10) (Some (110, 105)%Z) 4 1)).
  split; [reflexivity |].
  exact (proj1 (merged_timestamp_is_the_later 9 scroll_c scroll_d
                  (made ScrollAction 9
                     (scroll_data (3 # 10) (Some (110, 105)%Z) 4 1))
                  eq_refl)).
Defined.

(** X13.  Merging keeps the kind: for two actions whose payload kind is
    the one their class checks for, a merge returns an action of the
    receiver's class whose payload has the receiver's kind, so the result
    is again such an action. *)
Theorem merge_keeps_the_kind (now : Q) (a b r : Action) :
  well_formed a → well_formed b →
  merge_with now a b = Ok r →
  well_formed r
  ∧ cls r = cls a
  ∧ action_type (data r) = action_type (data a).
Proof.
  unfold well_formed. intros Ha Hb Hr. unfold merge_with in Hr.
  destruct (cls a) eqn:E; [| done | |];
    (destruct (can_merge_with a b) eqn:Hm; [| done]); cbn in Hr.
  - destruct (merge_needs_same_class a b Hm) as [Hc _].
    rewrite E in Hc.
    case_bool_decide; injection Hr as <-; repeat split; congruence.
  - case_bool_decide; injection Hr as <-; by rewrite Ha.
  - case_bool_decide; injection Hr as <-; by rewrite Ha.
Qed.

Lemma merge_keeps_the_kind_witness :
  well_formed (made TypeAction 9 (type_data (3 # 2) "Hello World")).
Proof.
  exact (proj1 (merge_keeps_the_kind 9 type_hello type_world
                  (made TypeAction 9 (type_data (3 # 2) "Hello World"))
                  eq_refl eq_refl eq_refl)).
Defined.

(** ** The factory *)

Lemma ActionType_of_name_Some (name : string) (t : ActionType) :
  ActionType_of_name name = Some t → ActionType_name t = name.
Proof.
  unfold ActionType_of_name.
  repeat match goal with
         | |- context [String.eqb name ?s] =>
             destruct (String.eqb_spec name s) as [-> | _];
             [by intros [= <-] |]
         end.
  done.
Qed.

Lemma ActionType_of_name_None (name : string) :
  ActionType_of_name name = None ↔ name ∉ member_names.
Proof.
  split.
  - intros Hn Hin. unfold member_names in Hin.
    apply list_elem_of_fmap in Hin as (t & -> & _).
    by rewrite ActionFacts.ActionType_of_name_name in Hn.
  - intros Hn. destruct (ActionType_of_name name) as [t |] eqn:E; [| done].
    exfalso. apply Hn. apply ActionType_of_name_Some in E as <-.
    unfold member_names. apply list_elem_of_fmap. exists t.
    split; [done |]. rewrite !elem_of_cons. destruct t; auto 10.
Qed.

(** X14.  With the registry as the module defines it, [create_action]
    returns an action exactly for the kinds MOVE, CLICK, TYPE and SCROLL;
    the action holds the payload it was given and is of the class that
    checks for its kind. *)
Theorem factory_builds_exactly_four_kinds (now : Q) (d : ActionData) :
  (∃ a, create_action _action_classes now d = Ok a
        ∧ data a = d ∧ well_formed a
        ∧ default_class (action_type d) = Some (cls a))
  ↔ action_type d ∈ [MOVE; CLICK; TYPE; SCROLL].
Proof.
  unfold create_action, Action_init, well_formed. split.
  - intros (a & Ha & _). rewrite !elem_of_cons.
    destruct (action_type d); auto; done.
  - rewrite !elem_of_cons, elem_of_nil.
    intros [E | [E | [E | [E | []]]]]; rewrite E; cbn; eexists; by rewrite ?E.
Qed.

(** ** Decoding dictionaries *)

Lemma create_action_messages reg now d msg :
  create_action reg now d = Raise (ValueError msg) →
  String.get 0 msg = String.get 0 "U" ∨ String.get 0 msg = String.get 0 "A".
Proof.
  unfold create_action, Action_init.
  destruct (reg !! action_type d); [case_decide |]; intros [= <-]; auto.
Qed.

(** X15.  [create_from_dict] raises the missing-kind error exactly when
    the dictionary has no ["action_type"], [None] or the empty string
    there, and the invalid-kind error, naming the value, exactly when the
    value is a non-empty string that is not one of the eight member names.
    The match is exact, so the lower-case ["move"] is invalid. *)
Theorem from_dict_kind_errors reg (now_ts now_id : Q) (dict : action_dict) :
  (create_from_dict reg now_ts now_id dict
   = Raise (ValueError "Missing action_type in action dictionary")
   ↔ d_action_type dict = None ∨ d_action_type dict = Some "")
  ∧ ((∃ name, create_from_dict reg now_ts now_id dict
              = Raise (ValueError ("Invalid action_type: " +:+ name)))
     ↔ ∃ name, d_action_type dict = Some name ∧ name ≠ ""
               ∧ name ∉ member_names)
  ∧ create_from_dict reg now_ts now_id (only_kind (Some "move"))
    = Raise (ValueError "Invalid action_type: move").
Proof.
  unfold create_from_dict.
  destruct (d_action_type dict) as [[| c name] |] eqn:E.
  - split; [split; auto |]. split; [| done]. split.
    + intros (n & [= H]).
    + by intros (n & [= <-] & Hn & _).
  - destruct (ActionType_of_name (String c name)) as [t |] eqn:En.
    + split; [| split; [| done]]; split.
      * intros H. apply create_action_messages in H.
        by destruct H as [H | H]; cbv in H.
      * by intros [? | ?].
      * intros (n & H). apply create_action_messages in H.
        by destruct H as [H | H]; cbv in H.
      * intros (n & [= <-] & _ & Hn).
        apply ActionType_of_name_None in Hn. congruence.
    + split; [| split; [| done]]; split.
      * intros [= H].
      * by intros [? | ?].
      * intros _. exists (String c name).
        split; [done |]. split; [done |]. by apply ActionType_of_name_None.
      * intros _. by eexists.
  - split; [split; auto |]. split; [| done]. split.
    + intros (n & [= H]).
    + by intros (n & ? & _).
Qed.

(** X16.  Decoding a dictionary and encoding the result gives the
    dictionary back with its kind name and payload entries unchanged, a
    missing timestamp replaced by the clock reading and missing metadata by
    the empty map.  The ["action_id"] and ["class_name"] entries are not
    read: the new dictionary has the id derived at decoding and the name of
    the class of the kind. *)
Theorem to_dict_after_from_dict reg (now_ts now_id : Q) (dict : action_dict)
    (a : Action) :
  create_from_dict reg now_ts now_id dict = Ok a →
  Action_to_dict a
  = {| d_action_type := d_action_type dict;
       d_timestamp := Some (default now_ts (d_timestamp dict));
       d_element_info := d_element_info dict;
       d_coordinates := d_coordinates dict;
       d_text := d_text dict;
       d_key_info := d_key_info dict;
       d_scroll_info := d_scroll_info dict;
       d_metadata := Some (default ∅ (d_metadata dict));
       d_action_id :=
         Some (fmt_id (default "" (d_action_type dict)) (microseconds now_id));
       d_class_name := Some (class_name (cls a)) |}.
Proof.
  unfold create_from_dict.
  destruct (d_action_type dict) as [[| c name] |] eqn:E; [done | | done].
  destruct (ActionType_of_name (String c name)) as [t |] eqn:En; [| done].
  intros Ha. apply ActionFacts.create_action_data in Ha as (Hd & _ & Hid).
  apply ActionType_of_name_Some in En.
  unfold Action_to_dict, ActionData_to_dict. rewrite Hid, Hd. cbn.
  unfold Action_id. cbn. by rewrite En.
Qed.

Lemma to_dict_after_from_dict_witness :
  d_timestamp
    (Action_to_dict (made ClickAction 4 (bare CLICK 3)))
  = Some 3%Q.
Proof.
  exact (f_equal d_timestamp
           (to_dict_after_from_dict _action_classes 3 4
              (only_kind (Some "CLICK")) (made ClickAction 4 (bare CLICK 3))
              eq_refl)).
Defined.

(** ** SCROLL merges and call order *)

(** X17.  For two SCROLL actions that merge, the summed deltas are the
    same in both call orders, and so are timestamp and coordinates when the
    timestamps differ.  Metadata and element_info follow the call, not the
    clock: the merged metadata is the receiver's overridden by the
    argument's, and the element_info is the argument's when that is
    present and the receiver's otherwise, also when the argument is the
    earlier action. *)
Theorem scroll_merge_and_call_order (now1 now2 : Q) (a b r1 r2 : Action) :
  cls a = ScrollAction → cls b = ScrollAction →
  merge_with now1 a b = Ok r1 →
  merge_with now2 b a = Ok r2 →
  scroll_info (data r1) = scroll_info (data r2)
  ∧ (¬ (timestamp (data a) == timestamp (data b))%Q →
     timestamp (data r1) = timestamp (data r2)
     ∧ coordinates (data r1) = coordinates (data r2))
  ∧ metadata (data r1) = metadata (data b) ∪ metadata (data a)
  ∧ metadata (data r2) = metadata (data a) ∪ metadata (data b)
  ∧ element_info (data r1)
    = dict_or (element_info (data b)) (element_info (data a))
  ∧ element_info (data r2)
    = dict_or (element_info (data a)) (element_info (data b)).
Proof.
  intros Ha Hb. unfold merge_with. rewrite Ha, Hb.
  destruct (can_merge_with a b), (can_merge_with b a); try done. cbn.
  intros [= <-] [= <-]. cbn.
  split.
  { by rewrite (Z.add_comm (scroll_get (scroll_info (data a)) "dx")),
               (Z.add_comm (scroll_get (scroll_info (data a)) "dy")). }
  split; [| done].
  intros Hne.
  destruct (Q_dec (timestamp (data a)) (timestamp (data b)))
    as [[Hlt | Hgt] | Heq]; [| | done].
  - rewrite (bool_decide_eq_true_2 _ Hlt).
    rewrite bool_decide_eq_false_2; [done |].
    apply Qle_not_lt. by apply Qlt_le_weak.
  - rewrite (bool_decide_eq_true_2 _ Hgt).
    rewrite bool_decide_eq_false_2; [done |].
    apply Qle_not_lt. by apply Qlt_le_weak.
Qed.

Lemma scroll_merge_and_call_order_witness :
  scroll_info
    (data (made ScrollAction 9 (scroll_data (3 # 10) (Some (110, 105)%Z) 4 1)))
  = scroll_info
      (data (made ScrollAction 5
               (scroll_data (3 # 10) (Some (110, 105)%Z) 4 1))).
Proof.
  exact (proj1 (scroll_merge_and_call_order 9 5 scroll_c scroll_d
           (made ScrollAction 9 (scroll_data (3 # 10) (Some (110, 105)%Z) 4 1))
           (made ScrollAction 5 (scroll_data (3 # 10) (Some (110, 105)%Z) 4 1))
           eq_refl eq_refl eq_refl eq_refl)).
Defined.

(** ** Replay *)


Lemma scroll_info_truthy (s : option (gmap string Z)) :
  dict_truthy s = bool_decide (s ≠ None ∧ s ≠ Some ∅).
Proof.
  unfold dict_truthy. destruct s as [m |].
  - destruct (decide (m = ∅)) as [-> | Hm].
    + rewrite bool_decide_eq_true_2 by apply dom_empty_L. cbn.
      symmetry. apply bool_decide_eq_false_2. by intros [_ H].
    + rewrite bool_decide_eq_false_2 by (by rewrite dom_empty_iff_L). cbn.
      symmetry. apply bool_decide_eq_true_2. split; congruence.
  - symmetry. apply bool_decide_eq_false_2. by intros [H _].
Qed.

(** [execute] returns [True] exactly when [pyautogui] can be
    imported and the action has the payload to replay (coordinates for MOVE
    and CLICK, a non-empty text for TYPE, a non-empty scroll_info for
    SCROLL); it then made exactly one GUI call, and in every other case it
    made none. *)
Lemma execute_calls_once_or_never (env : gui_env) (a : Action) :
  (execute env a).1 = pyautogui_available env && replayable a
  ∧ length (execute env a).2 = (if (execute env a).1 then 1 else 0).
Proof.
  unfold execute, replayable. rewrite <- scroll_info_truthy.
  destruct (cls a), (pyautogui_available env);
    try destruct (coordinates (data a)) as [[x y] |];
    try destruct (text (data a)) as [[| c t] |];
    try destruct (dict_truthy (scroll_info (data a)));
    try destruct (default (position env) (coordinates (data a)));
    cbn; try destruct (position env); cbn; split; try done;
    try (symmetry; apply bool_decide_eq_true_2; done);
    try (symmetry; apply bool_decide_eq_false_2; intros []; done);
    try (symmetry; apply bool_decide_eq_false_2; intros H; by apply H).
Qed.

End ActionLaws.

(** * More facts about the recording session *)
Module SessionLaws.
Import Session SessionRuns Samples.

Lemma set_state_fields now s new_state :
  let s' := (set_state now s new_state).1 in
  state s' = new_state
  ∧ _state_history s' = _state_history s ++ [(new_state, now)]
  ∧ _event_count s' = _event_count s
  ∧ _observers s' = _observers s
  ∧ session_id s' = session_id s
  ∧ (set_state now s new_state).2
    = map (λ o, (o, state s, new_state)) (_observers s).
Proof. done. Qed.

(** X19.  A call whose target the table allows from the current state
    goes through ([prepare] when the platform values arrive): it returns
    [True], the session is in the target state, the state history has one
    more entry, the target with the time of the call (after [reset] it is
    the only entry), the event count is kept (0 after [reset]), and every
    registered observer is called once per registration, in order, with
    the old and the new state. *)
Theorem allowed_transition_goes_through (c : transition_call) (now : Q)
    (s : RecordingSession) :
  can_transition_to s (target c) = true →
  env_provides c = true →
  ∃ s',
    run c now s
    = (true, s', map (λ o, (o, state s, target c)) (_observers s))
    ∧ state s' = target c
    ∧ _state_history s'
      = (if is_reset c then [] else _state_history s)
        ++ [(target c, now)]
    ∧ _event_count s' = (if is_reset c then 0 else _event_count s)
    ∧ _observers s' = _observers s
    ∧ session_id s' = session_id s.
Proof.
  intros Hcan Henv.
  destruct c as [[| name | name size] | | | | | |]; try done;
    cbn [run target] in *;
    unfold prepare, start, pause, resume, stop, complete, reset, guarded;
    rewrite Hcan; cbn [negb];
    eexists; (split; [reflexivity |]); by repeat split.
Qed.

Lemma allowed_transition_goes_through_witness :
  ∃ s',
    run (Prepare (Provided "linux" (1920, 1080)%Z)) 5 fresh_session
    = (true, s', [])
    ∧ state s' = PREPARING.
Proof.
  destruct (allowed_transition_goes_through
              (Prepare (Provided "linux" (1920, 1080)%Z)) 5 fresh_session
              eq_refl eq_refl) as (s' & H1 & H2 & _).
  exists s'. split; assumption.
Defined.

(** X20.  When [prepare] is called on an idle session and its set-up
    raises, the call returns [False] and the session ends in ERROR with the
    change recorded in the history, although the table does not list ERROR
    as a target from IDLE; a platform name obtained before the failure
    stays in the metadata. *)
Theorem failed_prepare_ends_in_error (env : prepare_env) (now : Q)
    (s : RecordingSession) :
  state s = IDLE →
  env_provides (Prepare env) = false →
  let r := prepare env now s in
  r.1.1 = false
  ∧ state r.1.2 = ERROR
  ∧ _state_history r.1.2 = _state_history s ++ [(ERROR, now)]
  ∧ r.2 = map (λ o, (o, IDLE, ERROR)) (_observers s)
  ∧ can_transition_to s ERROR = false
  ∧ platform (metadata r.1.2)
    = match env with
      | ScreenSizeRaises name => Some name
      | _ => platform (metadata s)
      end
  ∧ screen_resolution (metadata r.1.2) = screen_resolution (metadata s).
Proof.
  intros Hidle Henv. unfold prepare, can_transition_to. rewrite Hidle.
  destruct env as [| name | name size]; [| | done];
    cbn; rewrite Hidle; by repeat split.
Qed.

Lemma failed_prepare_ends_in_error_witness :
  state (prepare (ScreenSizeRaises "linux") 5 fresh_session).1.2 = ERROR.
Proof.
  exact (proj1 (proj2 (failed_prepare_ends_in_error
                         (ScreenSizeRaises "linux") 5 fresh_session
                         eq_refl eq_refl))).
Defined.

Lemma remove_observer_keeps s o :
  state (remove_observer s o) = state s
  ∧ metadata (remove_observer s o) = metadata s
  ∧ _state_history (remove_observer s o) = _state_history s.
Proof. unfold remove_observer. by destruct (bool_decide _). Qed.

Lemma guarded_state tgt now s :
  state (guarded tgt now s).1.2 = state s
  ∨ (state (guarded tgt now s).1.2 = tgt ∧ tgt ∈ valid_transitions (state s))
  ∨ state (guarded tgt now s).1.2 = ERROR.
Proof.
  unfold guarded, can_transition_to. case_bool_decide; cbn; auto.
Qed.

Lemma run_state_target (c : transition_call) now s :
  state (run c now s).1.2 = state s
  ∨ (state (run c now s).1.2 = target c
     ∧ target c ∈ valid_transitions (state s))
  ∨ state (run c now s).1.2 = ERROR.
Proof.
  destruct c as [env | | | | | |]; cbn [run target]; try apply guarded_state.
  - unfold prepare, can_transition_to. case_bool_decide; cbn; [| by left].
    destruct env; cbn; auto.
  - unfold reset, can_transition_to. case_bool_decide; cbn; auto.
Qed.

Lemma run_state (c : transition_call) now s :
  state (run c now s).1.2 = state s
  ∨ state (run c now s).1.2 ∈ valid_transitions (state s)
  ∨ state (run c now s).1.2 = ERROR.
Proof.
  destruct (run_state_target c now s) as [H | [[H1 H2] | H]]; auto.
  right. left. by rewrite H1.
Qed.

Lemma target_idle (c : transition_call) : target c = IDLE → c = Reset.
Proof. by destruct c. Qed.

(** X21.  No call makes the session jump: after any call the state is the
    one before, or a state the table allows from it, or ERROR. *)
Theorem state_moves_along_the_table (s : RecordingSession) (op : SessionOp) :
  state (apply_op s op) = state s
  ∨ state (apply_op s op) ∈ valid_transitions (state s)
  ∨ state (apply_op s op) = ERROR.
Proof.
  destruct op as [c now | msg now | | o | o]; cbn [apply_op].
  - apply run_state.
  - right. right. done.
  - by left.
  - by left.
  - left. apply remove_observer_keeps.
Qed.

(** X22.  A finished session, one in STOPPED or ERROR, stays finished
    under every call except a [reset], which takes it to IDLE. *)
Theorem finished_until_reset (s : RecordingSession) (op : SessionOp) :
  is_finished s = true →
  is_finished (apply_op s op) = true
  ∨ ((∃ now, op = Call Reset now) ∧ state (apply_op s op) = IDLE).
Proof.
  unfold is_finished. intros Hf. apply bool_decide_eq_true in Hf.
  assert (state s = STOPPED ∨ state s = ERROR) as Hs.
  { rewrite !elem_of_cons, elem_of_nil in Hf. tauto. }
  destruct op as [c now | msg now | | o | o]; cbn [apply_op].
  - destruct (run_state_target c now s) as [H | [[H1 H2] | H]].
    + left. rewrite H. by apply bool_decide_eq_true_2.
    + rewrite H1.
      destruct Hs as [Hs | Hs]; rewrite Hs in H2; cbn in H2;
        rewrite ?elem_of_cons, elem_of_nil in H2;
        destruct H2 as [H2 | H2]; try done.
      * right. split; [| done]. apply target_idle in H2. by exists now; subst.
      * right. split; [| done]. apply target_idle in H2. by exists now; subst.
      * left. destruct H2 as [H2 | []]. by rewrite H2.
    + left. by rewrite H.
  - left. done.
  - left. by apply bool_decide_eq_true_2.
  - left. by apply bool_decide_eq_true_2.
  - left. rewrite (proj1 (remove_observer_keeps s o)).
    by apply bool_decide_eq_true_2.
Qed.

Lemma finished_until_reset_witness :
  is_finished (apply_op (error "x" 3 fresh_session).1 (Call Complete 4))
  = true
  ∨ ((∃ now, Call Complete 4 = Call Reset now)
     ∧ state (apply_op (error "x" 3 fresh_session).1 (Call Complete 4))
       = IDLE).
Proof.
  exact (finished_until_reset (error "x" 3 fresh_session).1
           (Call Complete 4) eq_refl).
Defined.

(** X23.  An end time is stamped once: when the metadata holds an end
    time, no call changes it except a [reset] that goes through, which
    replaces the metadata. *)
Theorem end_time_is_kept_until_reset (s : RecordingSession) (op : SessionOp)
    (t : Q) :
  end_time (metadata s) = Some t →
  end_time (metadata (apply_op s op)) = Some t
  ∨ ((∃ now, op = Call Reset now)
     ∧ metadata (apply_op s op) = SessionMetadata_init (session_id s)).
Proof.
  intros Ht.
  assert (∀ now s0 st, end_time (metadata s0) = Some t →
            end_time (metadata (set_state now s0 st).1) = Some t) as Hset.
  { intros now s0 st H0. unfold set_state. cbn.
    case_decide as Hr; [done |]. rewrite H0. case_decide as Hst; [| done].
    by destruct Hst. }
  destruct op as [c now | msg now | | o | o]; cbn [apply_op].
  - destruct c as [env | | | | | |]; cbn [run];
      unfold prepare, start, pause, resume, stop, complete, reset, guarded;
      destruct (can_transition_to s _); cbn [negb fst snd];
      try (left; done); try (left; by apply Hset).
    + left. destruct env; apply Hset; exact Ht.
    + right. split; [by exists now |].
      unfold set_state. cbn.
      by rewrite !decide_False by (by intros [? _]).
  - left. unfold error. apply Hset. exact Ht.
  - by left.
  - by left.
  - left. by rewrite (proj1 (proj2 (remove_observer_keeps s o))).
Qed.

Lemma end_time_is_kept_until_reset_witness :
  end_time
    (metadata
       (apply_op
          (run_ops fresh_session
             (full_recording "linux" (1920, 1080)%Z 1 2 3 4 5 6))
          (ErrorOp "late" 7)))
  = Some 6%Q
  ∨ ((∃ now, ErrorOp "late" 7 = Call Reset now)
     ∧ metadata
         (apply_op
            (run_ops fresh_session
               (full_recording "linux" (1920, 1080)%Z 1 2 3 4 5 6))
            (ErrorOp "late" 7))
       = SessionMetadata_init (session_id
           (run_ops fresh_session
              (full_recording "linux" (1920, 1080)%Z 1 2 3 4 5 6)))).
Proof.
  exact (end_time_is_kept_until_reset
           (run_ops fresh_session
              (full_recording "linux" (1920, 1080)%Z 1 2 3 4 5 6))
           (ErrorOp "late" 7) 6 eq_refl).
Defined.

(** ** Runs from a new session *)

Lemma set_state_agrees now s st : history_agrees (set_state now s st).1.
Proof. unfold history_agrees, set_state. cbn. by rewrite last_snoc. Qed.

Lemma apply_op_agrees (s : RecordingSession) (op : SessionOp) :
  history_agrees s → history_agrees (apply_op s op).
Proof.
  intros Hs. destruct op as [c now | msg now | | o | o]; cbn [apply_op].
  - destruct c as [env | | | | | |]; cbn [run];
      unfold prepare, start, pause, resume, stop, complete, reset, guarded;
      destruct (can_transition_to s _); cbn [negb fst snd];
      try done; try apply set_state_agrees.
    destruct env; apply set_state_agrees.
  - apply set_state_agrees.
  - done.
  - done.
  - unfold history_agrees.
    by destruct (remove_observer_keeps s o) as (-> & _ & ->).
Qed.

(** X24.  After any sequence of calls on a new session the state history
    and the state agree: the last history entry records the current state,
    and the history is empty only while the session is still idle. *)
Theorem history_tracks_the_state (uuid : string) (sid path : option string)
    (ops : list SessionOp) :
  let s := run_ops (RecordingSession_init uuid sid path) ops in
  match last (get_state_history s) with
  | None => state s = IDLE
  | Some (st, _) => st = state s
  end.
Proof.
  cbn zeta. unfold run_ops, get_state_history.
  change (history_agrees (foldl apply_op (RecordingSession_init uuid sid path) ops)).
  assert (history_agrees (RecordingSession_init uuid sid path)) as H0 by done.
  revert H0. generalize (RecordingSession_init uuid sid path).
  induction ops as [| op ops IH]; intros s Hs; [done |].
  cbn [foldl]. apply IH. by apply apply_op_agrees.
Qed.

Lemma can_from (st tgt : SessionState) (s : RecordingSession) :
  state s = st → tgt ∈ valid_transitions st → can_transition_to s tgt = true.
Proof.
  intros <- Hin. unfold can_transition_to. by apply bool_decide_eq_true_2.
Qed.

(** The fields of the session after a guarded call that goes through. *)
Lemma guarded_fields (tgt : SessionState) (now : Q) (s : RecordingSession) :
  can_transition_to s tgt = true →
  let s' := (guarded tgt now s).1.2 in
  state s' = tgt
  ∧ _state_history s' = _state_history s ++ [(tgt, now)]
  ∧ _event_count s' = _event_count s
  ∧ start_time (metadata s')
    = (if decide (tgt = RECORDING ∧ state s ≠ PAUSED) then Some now
       else start_time (metadata s))
  ∧ end_time (metadata s')
    = (if decide (tgt = RECORDING ∧ state s ≠ PAUSED)
       then end_time (metadata s)
       else if decide (tgt = STOPPED ∧ end_time (metadata s) = None)
            then Some now else end_time (metadata s))
  ∧ platform (metadata s') = platform (metadata s)
  ∧ screen_resolution (metadata s') = screen_resolution (metadata s).
Proof.
  intros H. unfold guarded. rewrite H. cbn.
  repeat split; by repeat case_decide.
Qed.

(** X25.  One full recording on an idle session, [prepare], [start],
    [pause], [resume], [stop], [complete]: the session ends in STOPPED with
    six more history entries in call order; the start time is the time of
    [start] and is not moved by [resume]; the end time is the time of
    [complete]; platform and resolution are those [prepare] obtained; and
    [duration] is end minus start when neither time is zero. *)
Theorem full_recording_stamps_times (s : RecordingSession) (name : string)
    (size : Z * Z) (t1 t2 t3 t4 t5 t6 : Q) :
  state s = IDLE →
  end_time (metadata s) = None →
  let s' := run_ops s (full_recording name size t1 t2 t3 t4 t5 t6) in
  state s' = STOPPED
  ∧ _state_history s'
    = _state_history s
      ++ [(PREPARING, t1); (RECORDING, t2); (PAUSED, t3); (RECORDING, t4);
          (STOPPING, t5); (STOPPED, t6)]
  ∧ start_time (metadata s') = Some t2
  ∧ end_time (metadata s') = Some t6
  ∧ platform (metadata s') = Some name
  ∧ screen_resolution (metadata s') = Some size
  ∧ _event_count s' = _event_count s
  ∧ duration (metadata s')
    = (if Qeq_bool t2 0 || Qeq_bool t6 0 then None else Some (t6 - t2)%Q).
Proof.
  intros Hidle Hend. cbn zeta.
  unfold full_recording, run_ops. cbn [foldl apply_op run].
  unfold start, pause, resume, stop, complete.
  set (m1 := set_screen_resolution (set_platform (metadata s) name) size).
  assert ((prepare (Provided name size) t1 s).1.2
          = (set_state t1 (with_metadata s m1) PREPARING).1) as ->.
  { unfold prepare, can_transition_to. rewrite Hidle. done. }
  set (s1 := (set_state t1 (with_metadata s m1) PREPARING).1).
  destruct (guarded_fields RECORDING t2 s1 eq_refl)
    as (F2 & H2 & C2 & S2 & E2 & P2 & R2).
  set (s2 := (guarded RECORDING t2 s1).1.2) in *.
  destruct (guarded_fields PAUSED t3 s2 (can_from _ _ _ F2 ltac:(by left)))
    as (F3 & H3 & C3 & S3 & E3 & P3 & R3).
  set (s3 := (guarded PAUSED t3 s2).1.2) in *.
  destruct (guarded_fields RECORDING t4 s3 (can_from _ _ _ F3 ltac:(by left)))
    as (F4 & H4 & C4 & S4 & E4 & P4 & R4).
  set (s4 := (guarded RECORDING t4 s3).1.2) in *.
  destruct (guarded_fields STOPPING t5 s4
              (can_from _ _ _ F4 ltac:(by right; left)))
    as (F5 & H5 & C5 & S5 & E5 & P5 & R5).
  set (s5 := (guarded STOPPING t5 s4).1.2) in *.
  destruct (guarded_fields STOPPED t6 s5 (can_from _ _ _ F5 ltac:(by left)))
    as (F6 & H6 & C6 & S6 & E6 & P6 & R6).
  set (s6 := (guarded STOPPED t6 s5).1.2) in *.
  assert (start_time (metadata s6) = Some t2) as Hstart.
  { rewrite S6, decide_False by (by intros [? _]).
    rewrite S5, decide_False by (by intros [? _]).
    rewrite S4, decide_False by (intros [_ ?]; congruence).
    rewrite S3, decide_False by (by intros [? _]).
    by rewrite S2, decide_True. }
  assert (end_time (metadata s6) = Some t6) as Hstop.
  { rewrite E6, decide_False by (by intros [? _]).
    rewrite decide_True; [done |]. split; [done |].
    rewrite E5, !decide_False by (by intros [? _]).
    rewrite E4, decide_False by (intros [_ ?]; congruence).
    rewrite decide_False by (by intros [? _]).
    rewrite E3, !decide_False by (by intros [? _]).
    by rewrite E2, decide_True. }
  split; [done |]. split.
  { rewrite H6, H5, H4, H3, H2. cbn. by rewrite <- !(assoc_L (++)). }
  split; [done |]. split; [done |].
  split; [by rewrite P6, P5, P4, P3, P2 |].
  split; [by rewrite R6, R5, R4, R3, R2 |].
  split; [by rewrite C6, C5, C4, C3, C2 |].
  unfold duration. rewrite Hstart, Hstop. cbn.
  by destruct (Qeq_bool t2 0), (Qeq_bool t6 0).
Qed.

Lemma full_recording_stamps_times_witness :
  duration
    (metadata
       (run_ops fresh_session
          (full_recording "linux" (1920, 1080)%Z 1 2 3 4 5 6)))
  = Some (6 - 2)%Q.
Proof.
  exact (proj2 (proj2 (proj2 (proj2 (proj2 (proj2 (proj2
           (full_recording_stamps_times fresh_session "linux"
              (1920, 1080)%Z 1 2 3 4 5 6 eq_refl eq_refl)))))))).
Defined.

(** X26.  [reset] goes through exactly from STOPPED and from ERROR.  It
    then replaces the metadata by a new one that keeps only the session id
    (times, platform, tags and custom data, the error message with them,
    are gone), empties the event count, and keeps the observers, the
    recording path and the three configuration flags. *)
Theorem reset_starts_over (now : Q) (s : RecordingSession) :
  ((reset now s).1.1 = true ↔ state s = STOPPED ∨ state s = ERROR)
  ∧ (if (reset now s).1.1
     then metadata (reset now s).1.2 = SessionMetadata_init (session_id s)
          ∧ _event_count (reset now s).1.2 = 0
          ∧ _state_history (reset now s).1.2 = [(IDLE, now)]
          ∧ state (reset now s).1.2 = IDLE
     else (reset now s).1.2 = s)
  ∧ _observers (reset now s).1.2 = _observers s
  ∧ recording_path (reset now s).1.2 = recording_path s
  ∧ natural_scrolling (reset now s).1.2 = natural_scrolling s
  ∧ generate_window_a11y (reset now s).1.2 = generate_window_a11y s
  ∧ generate_element_a11y (reset now s).1.2 = generate_element_a11y s.
Proof.
  unfold reset, can_transition_to.
  destruct (state s) eqn:E; cbn; repeat split; try done;
    try (intros [? | ?]; done); auto;
    unfold set_state; cbn;
    by rewrite !decide_False by (by intros [? _]).
Qed.

End SessionLaws.

(** * Facts about the platform provider *)
Module PlatformLaws.
Import Platform.

(** X27.  [get_platform_provider] returns a provider exactly for the
    three names darwin, windows and linux, taken from [force_platform] when
    that is a non-empty string and from the detected system otherwise, and
    the provider reports that very name.  Every other name raises. *)
Theorem provider_reports_requested_platform (force : option string)
    (system : string) :
  let wanted :=
    match force with
    | None | Some "" => system
    | Some name => name
    end in
  match get_platform_provider force system with
  | inr provider =>
      get_platform_name provider = wanted
      ∧ wanted ∈ ["darwin"; "windows"; "linux"]
  | inl _ => wanted ∉ ["darwin"; "windows"; "linux"]
  end.
Proof.
  assert (∀ name : string,
            "darwin" ∈ ["darwin"; "windows"; "linux"]
            ∧ "windows" ∈ ["darwin"; "windows"; "linux"]
            ∧ "linux" ∈ ["darwin"; "windows"; "linux"]
            ∧ (name ≠ "darwin" → name ≠ "windows" → name ≠ "linux" →
               name ∉ ["darwin"; "windows"; "linux"])) as Hin.
  { intros name. split; [| split; [| split]].
    1-3: rewrite !elem_of_cons; auto.
    intros H1 H2 H3. rewrite !elem_of_cons, elem_of_nil.
    intros [? | [? | [? | []]]]; done. }
  assert (∀ name,
            match (if String.eqb name "darwin" then inr DarwinAdapter
                   else if String.eqb name "windows" then inr WindowsAdapter
                   else if String.eqb name "linux" then inr LinuxAdapter
                   else inl (RuntimeError
                               ("No provider available for platform: "
                                +:+ name))) : exn + Adapter with
            | inr provider =>
                get_platform_name provider = name
                ∧ name ∈ ["darwin"; "windows"; "linux"]
            | inl _ => name ∉ ["darwin"; "windows"; "linux"]
            end) as Hname.
  { intros name. destruct (Hin name) as (Hd & Hw & Hl & Hn).
    destruct (String.eqb_spec name "darwin") as [-> | H1]; [done |].
    destruct (String.eqb_spec name "windows") as [-> | H2]; [done |].
    destruct (String.eqb_spec name "linux") as [-> | H3]; [done |].
    by apply Hn. }
  assert (match get_platform_provider None system with
          | inr provider =>
              get_platform_name provider = system
              ∧ system ∈ ["darwin"; "windows"; "linux"]
          | inl _ => system ∉ ["darwin"; "windows"; "linux"]
          end) as Hdetect.
  { unfold get_platform_provider, detect_platform.
    destruct (Hin system) as (Hd & Hw & Hl & Hn).
    destruct (String.eqb_spec system "darwin") as [-> | H1]; [done |].
    destruct (String.eqb_spec system "windows") as [-> | H2]; [done |].
    destruct (String.eqb_spec system "linux") as [-> | H3]; [done |].
    by apply Hn. }
  cbn zeta. destruct force as [[| c name] |]; [exact Hdetect | | exact Hdetect].
  unfold get_platform_provider. apply Hname.
Qed.

Lemma provider_of_supported (system : string) :
  supported system = true →
  ∃ provider,
    get_platform_provider None system = inr provider
    ∧ get_platform_name provider = system.
Proof.
  intros Hs. apply bool_decide_eq_true in Hs.
  rewrite !elem_of_cons, elem_of_nil in Hs.
  destruct Hs as [-> | [-> | [-> | []]]]; eexists; split; reflexivity.
Qed.

Lemma provider_of_unsupported (system : string) :
  supported system = false →
  ∃ e, get_platform_provider None system = inl e.
Proof.
  intros Hs. apply bool_decide_eq_false in Hs.
  rewrite !elem_of_cons, elem_of_nil in Hs.
  unfold get_platform_provider, detect_platform.
  destruct (String.eqb_spec system "darwin") as [-> | H1]; [tauto |].
  destruct (String.eqb_spec system "windows") as [-> | H2]; [tauto |].
  destruct (String.eqb_spec system "linux") as [-> | H3]; [tauto |].
  by eexists.
Qed.

(** X28.  [prepare] on an idle session, with the provider the module
    picks: it returns [True] and enters PREPARING exactly when the
    directory can be made, the system is darwin, windows or linux, and the
    screen size call does not raise; the metadata then holds the system
    name and the screen size, (1920, 1080) when [pyautogui] is not
    installed.  In every other case it returns [False] and the session is
    in ERROR, with the platform name stored only if the failure came after
    it was read. *)
Theorem prepare_records_platform_or_fails (mkdir_ok : bool) (system : string)
    (p : pyautogui_size) (now : Q) (s : Session.RecordingSession) :
  Session.state s = Session.IDLE →
  let r := Session.prepare (prepare_env_of mkdir_ok system p) now s in
  let reached := mkdir_ok && supported system in
  let ok := reached && bool_decide (size_or_fallback p ≠ None) in
  r.1.1 = ok
  ∧ Session.state r.1.2 = (if ok then Session.PREPARING else Session.ERROR)
  ∧ Session.platform (Session.metadata r.1.2)
    = (if reached then Some system
       else Session.platform (Session.metadata s))
  ∧ Session.screen_resolution (Session.metadata r.1.2)
    = (if ok then size_or_fallback p
       else Session.screen_resolution (Session.metadata s)).
Proof.
  intros Hidle. cbn zeta.
  unfold Session.prepare, Session.can_transition_to. rewrite Hidle.
  rewrite bool_decide_eq_true_2 by (cbn; set_solver). cbn [negb].
  unfold prepare_env_of. destruct mkdir_ok; cbn [negb andb]; [| done].
  destruct (supported system) eqn:Hs.
  - destruct (provider_of_supported system Hs) as (pr & -> & Hn).
    rewrite Hn. by destruct p.
  - by destruct (provider_of_unsupported system Hs) as (e & ->).
Qed.

Lemma prepare_records_platform_or_fails_witness :
  Session.platform
    (Session.metadata
       (Session.prepare (prepare_env_of true "linux" NotInstalled) 5
          Samples.fresh_session).1.2)
  = Some "linux".
Proof.
  exact (proj1 (proj2 (proj2 (prepare_records_platform_or_fails true "linux"
                  NotInstalled 5 Samples.fresh_session eq_refl)))).
Defined.

End PlatformLaws.

(** * Facts about the encryption providers *)
Module EncryptionLaws.
Import Encryption.

Lemma xor_total (key data : bytes) :
  key ≠ [] →
  _xor_encrypt_decrypt key data
  = Some (imap (λ i x, Z.lxor x (default 0%Z (key !! (i mod length key))))
               data).
Proof. intros Hk. by destruct key, data. Qed.

Lemma xor_twice (key data : bytes) :
  imap (λ i x, Z.lxor x (default 0%Z (key !! (i mod length key))))
    (imap (λ i x, Z.lxor x (default 0%Z (key !! (i mod length key)))) data)
  = data.
Proof.
  apply list_eq. intros i. rewrite !list_lookup_imap.
  destruct (data !! i) as [x |]; [| done]. cbn. f_equal.
  rewrite Z.lxor_assoc, Z.lxor_nilpotent. apply Z.lxor_0_r.
Qed.

Lemma lxor_byte (x k : Z) :
  (0 ≤ x < 256)%Z → (0 ≤ k < 256)%Z → (0 ≤ Z.lxor x k < 256)%Z.
Proof.
  intros [Hx0 Hx] [Hk0 Hk].
  assert (0 ≤ Z.lxor x k)%Z as H0 by (by apply Z.lxor_nonneg).
  split; [done |].
  destruct (decide (Z.lxor x k = 0%Z)) as [-> | Hne]; [done |].
  change 256%Z with (2 ^ 8)%Z. apply Z.log2_lt_pow2; [lia |].
  pose proof (Z.log2_lxor x k Hx0 Hk0) as Hl.
  assert (Z.log2 x < 8)%Z.
  { destruct (decide (x = 0%Z)) as [-> | ?]; [done |].
    apply Z.log2_lt_pow2; lia. }
  assert (Z.log2 k < 8)%Z.
  { destruct (decide (k = 0%Z)) as [-> | ?]; [done |].
    apply Z.log2_lt_pow2; lia. }
  lia.
Qed.

(** X29.  With a non-empty key the XOR step is its own inverse: applying
    [_xor_encrypt_decrypt] twice gives the data back.  The step keeps the
    length, and on a key and data made of bytes its result is made of
    bytes.  An empty key raises on non-empty data. *)
Theorem xor_step_is_an_involution (key data : bytes) :
  key ≠ [] →
  ∃ encrypted,
    _xor_encrypt_decrypt key data = Some encrypted
    ∧ _xor_encrypt_decrypt key encrypted = Some data
    ∧ length encrypted = length data
    ∧ (Forall (λ b, 0 ≤ b < 256)%Z key → Forall (λ b, 0 ≤ b < 256)%Z data →
       Forall (λ b, 0 ≤ b < 256)%Z encrypted)
    ∧ (data ≠ [] → _xor_encrypt_decrypt [] data = None).
Proof.
  intros Hk. eexists. split; [by apply xor_total |].
  split; [by rewrite xor_total, xor_twice |].
  split; [apply length_imap |]. split.
  - intros Hkey Hdata. apply Forall_lookup. intros i y.
    rewrite list_lookup_imap.
    destruct (data !! i) as [x |] eqn:Ex; [| done]. intros [= <-].
    apply lxor_byte.
    + exact (proj1 (Forall_lookup _ data) Hdata i x Ex).
    + destruct (key !! (i mod length key)) as [k |] eqn:Ek; [| done].
      exact (proj1 (Forall_lookup _ key) Hkey _ k Ek).
  - by destruct data.
Qed.

Lemma xor_step_is_an_involution_witness :
  ∃ encrypted,
    _xor_encrypt_decrypt [1; 2]%Z [10; 20; 30]%Z = Some encrypted
    ∧ _xor_encrypt_decrypt [1; 2]%Z encrypted = Some [10; 20; 30]%Z.
Proof.
  destruct (xor_step_is_an_involution [1; 2]%Z [10; 20; 30]%Z
              ltac:(done)) as (e & H1 & H2 & _).
  exists e. split; assumption.
Defined.

Section RoundTrip.

Variable json : Type.
Variable json_dumps : pydict → string.
Variable json_loads : string → option json.
Variable utf8_encode : string → bytes.
Variable utf8_decode : bytes → option string.
Variable b64encode : bytes → bytes.
Variable b64decode : bytes → option bytes.

Lemma startswith_header (rest : bytes) : startswith (header ++ rest) header = true.
Proof.
  unfold startswith. apply bool_decide_eq_true_2.
  by rewrite take_app_length.
Qed.

(** X30.  What [SimpleEncryption.encrypt_data] writes, [decrypt_data] of
    the same key reads back: the plaintext bytes, returned as the JSON
    value they parse to, else as the string they decode to, else as bytes.
    So bytes that are not UTF-8 come back as they were, a string comes back
    as a string only when it is not itself valid JSON, and data without the
    header is returned untouched. *)
Theorem decrypt_reads_what_encrypt_wrote (key : bytes) (data : plain) :
  key ≠ [] →
  (∀ b, b64decode (b64encode b) = Some b) →
  ∃ encrypted,
    encrypt_data json_dumps utf8_encode b64encode key data = Some encrypted
    ∧ startswith encrypted header = true
    ∧ decrypt_data json json_loads utf8_decode b64decode key encrypted
      = sniff json json_loads utf8_decode
              (to_bytes json_dumps utf8_encode data)
    ∧ ∀ other,
        startswith other header = false →
        decrypt_data json json_loads utf8_decode b64decode key other
        = DBytes other.
Proof.
  intros Hk Hb64. unfold encrypt_data, decrypt_data.
  pose proof (xor_total key (to_bytes json_dumps utf8_encode data) Hk) as H1.
  assert (_xor_encrypt_decrypt key
            (imap (λ i x,
                     Z.lxor x (default 0%Z (key !! (i mod length key))))
                  (to_bytes json_dumps utf8_encode data))
          = Some (to_bytes json_dumps utf8_encode data)) as H2
    by (by rewrite xor_total, xor_twice).
  rewrite H1. eexists. split; [reflexivity |].
  rewrite startswith_header. split; [done |]. cbn [negb]. split.
  - by rewrite drop_app_length, Hb64, H2.
  - by intros other ->.
Qed.

End RoundTrip.

Lemma decrypt_reads_what_encrypt_wrote_witness :
  ∃ encrypted,
    encrypt_data (λ _, "") (λ _, []) (λ b, b) [7]%Z (PBytes [65; 66]%Z)
    = Some encrypted
    ∧ decrypt_data Z (λ _, None) (λ _, None) Some [7]%Z encrypted
      = DBytes [65; 66]%Z.
Proof.
  destruct (decrypt_reads_what_encrypt_wrote Z (λ _, "") (λ _, None)
              (λ _, []) (λ _, None) (λ b, b) Some [7]%Z (PBytes [65; 66]%Z)
              ltac:(done) ltac:(done)) as (e & H1 & _ & H2 & _).
  exists e. split; assumption.
Defined.

End EncryptionLaws.
